(** * Lab Co-Pilot: the tool dispatcher, the sandbox and the chat loop

    A shallow embedding of [backend/store.py], [backend/services/sandbox.py],
    [backend/services/llm.py], [backend/services/doc_processor.py],
    [backend/services/knowledge_base.py] and of the handlers of
    [backend/routers/chat.py] and [backend/routers/data.py].

    - Python values that travel through tool envelopes are [pyval]s; a Python
      [dict] with string keys is an insertion-ordered association list.
    - A pandas DataFrame is an object on a heap ([list DataFrame], a reference
      is an index); [store.data_frames] maps a file id to a reference, so that
      [df.copy()] in the sandbox is visibly a new object.
    - The process is in a [State]: the globals of [store.py], the heap, and a
      [world] for all the rest a run can read or change (the vector index,
      the options of pandas, the random generator, the clock).
    - A call returns, raises an exception under [Exception] or one outside
      it, or does not come back: [outcome].
    - What the modelled code calls and does not itself define (the data
      engine, the search of the knowledge base, the model provider, [exec],
      [json], [plotly]) is a field of the record [Collaborators]. *)

From Stdlib Require Import ZArith Lia.
From stdpp Require Import gmap strings list pretty.

Set Warnings "-register-all".

(** ** Python values *)

(** - [PFloat r]: the float whose [repr()] is [r];
    - [PDict d]: a [dict] all of whose keys are [str];
    - [PMap items]: a [dict] with keys of any kind, as the assignments that
      built it, in order (a later one to an equal key overwrites);
    - [PObject cls r]: any other object, of the class named [cls], [r]
      being its [str()]. *)
Inductive pyval :=
| PNone
| PBool (b : bool)
| PInt (n : Z)
| PFloat (repr : string)
| PStr (s : string)
| PList (l : list pyval)
| PTuple (l : list pyval)
| PDict (d : list (string * pyval))
| PMap (items : list (pyval * pyval))
| PObject (cls repr : string).

(** A [dict[str, Any]]. *)
Abbreviation dict := (list (string * pyval)).

(** [d.get(k)] / [k in d]. *)
Fixpoint dict_get (k : string) (d : dict) : option pyval :=
  match d with
  | [] => None
  | (k', v) :: d' => if String.eqb k k' then Some v else dict_get k d'
  end.

(** [d[k] = v]: overwrite in place, or append a new key. *)
Fixpoint dict_set (k : string) (v : pyval) (d : dict) : dict :=
  match d with
  | [] => [(k, v)]
  | (k', v') :: d' =>
      if String.eqb k k' then (k', v) :: d' else (k', v') :: dict_set k v d'
  end.

(** A key that equals the [str] [k]: only a [str] does. *)
Definition key_is (k : string) (key : pyval) : bool :=
  match key with PStr s => String.eqb k s | _ => false end.

(** [m.get(k)] / [k in m] for a [str] [k]: the last assignment to it. *)
Fixpoint map_get (k : string) (items : list (pyval * pyval)) : option pyval :=
  match items with
  | [] => None
  | (key, v) :: items' =>
      match map_get k items' with
      | Some v' => Some v'
      | None => if key_is k key then Some v else None
      end
  end.

(** [isinstance(v, dict)]: the lookup of a [dict], by [str] keys. *)
Definition as_mapping (v : pyval) : option (string → option pyval) :=
  match v with
  | PDict d => Some (fun k => dict_get k d)
  | PMap items => Some (fun k => map_get k items)
  | _ => None
  end.

(** [bool(v)], as used by [if ... and tool_result["plot_json"]]. *)
Definition py_truthy (v : pyval) : bool :=
  match v with
  | PNone => false
  | PBool b => b
  | PInt n => negb (n =? 0)%Z
  | PFloat r => negb (String.eqb r "0.0" || String.eqb r "-0.0")
  | PStr s => negb (String.eqb s "")
  | PList l | PTuple l => match l with [] => false | _ => true end
  | PDict d => match d with [] => false | _ => true end
  | PMap items => match items with [] => false | _ => true end
  | PObject _ _ => true
  end.

(** [isinstance(v, list)] *)
Definition is_list (v : pyval) : bool :=
  match v with PList _ => true | _ => false end.

(** [type(v).__name__] *)
Definition type_name (v : pyval) : string :=
  match v with
  | PNone => "NoneType"
  | PBool _ => "bool"
  | PInt _ => "int"
  | PFloat _ => "float"
  | PStr _ => "str"
  | PList _ => "list"
  | PTuple _ => "tuple"
  | PDict _ | PMap _ => "dict"
  | PObject cls _ => cls
  end.

Definition dq_char : Ascii.ascii := Ascii.ascii_of_nat 34.
Definition sq_char : Ascii.ascii := Ascii.ascii_of_nat 39.
Definition dq : string := String dq_char "".
Definition backslash : string := String (Ascii.ascii_of_nat 92) "".

Definition has_char (c : Ascii.ascii) (s : string) : bool :=
  existsb (Ascii.eqb c) (String.list_ascii_of_string s).

Definition hex_digit (n : nat) : string :=
  String.substring n 1 "0123456789abcdef".

(** One character inside [repr(s)], the quote being [q]. *)
Definition repr_char (q : Ascii.ascii) (c : Ascii.ascii) : string :=
  let n := Ascii.nat_of_ascii c in
  if n =? 92 then backslash +:+ backslash
  else if Ascii.eqb c q then backslash +:+ String c ""
  else if n =? 10 then backslash +:+ "n"
  else if n =? 13 then backslash +:+ "r"
  else if n =? 9 then backslash +:+ "t"
  else if (n <? 32) || (n =? 127)
       then backslash +:+ "x" +:+ hex_digit (n / 16) +:+ hex_digit (n mod 16)
  else String c "".

(** [repr(s)] of a [str] of printable text: single quotes, unless the text
    has a single quote and no double one. *)
Definition py_repr (s : string) : string :=
  let q := if has_char sq_char s && negb (has_char dq_char s) then dq_char else sq_char in
  String q "" +:+ String.concat "" (map (repr_char q) (String.list_ascii_of_string s))
    +:+ String q "".

(** ** Exceptions and outcomes *)

(** The exceptions under [Exception] that the modelled code raises or
    catches. [PyException] is any other subclass of [Exception], by the
    name of its class and its [str()]. *)
Inductive exn :=
| SandboxTimeout
| KeyError (key : string)
| TypeError (msg : string)
| AttributeError (msg : string)
| RuntimeError (msg : string)
| PyException (cls msg : string).

(** [str(e)]; for a [KeyError] it is the [repr] of the key. *)
Definition exn_str (e : exn) : string :=
  match e with
  | SandboxTimeout => "Code execution timed out (10s limit)."
  | KeyError k => py_repr k
  | TypeError m | AttributeError m | RuntimeError m | PyException _ m => m
  end.

(** A collaborator call returns a value or raises. *)
Inductive result (A : Type) :=
| Ok (a : A)
| Err (e : exn).
Arguments Ok {A} a.
Arguments Err {A} e.

(** A call into the modelled code returns, raises an exception under
    [Exception], raises one outside it ([KeyboardInterrupt], [SystemExit],
    [GeneratorExit], or a class derived from [BaseException] directly, by
    the name of its class and its [str()]), or never comes back. *)
Inductive outcome (A : Type) :=
| Returns (a : A)
| Raises (e : exn)
| RaisesBase (cls msg : string)
| Diverges.
Arguments Returns {A} a.
Arguments Raises {A} e.
Arguments RaisesBase {A} cls msg.
Arguments Diverges {A}.

Definition lift {A} (r : result A) : outcome A :=
  match r with Ok a => Returns a | Err e => Raises e end.

(** [args[k]] for a [str] [k]. The arguments come from [json.loads]: a
    [dict] when the model provider follows the schema, and any other JSON
    value otherwise, for which the subscript raises [TypeError]. *)
Definition getitem (args : pyval) (k : string) : result pyval :=
  match as_mapping args with
  | Some look =>
      match look k with Some v => Ok v | None => Err (KeyError k) end
  | None =>
      Err (TypeError
             match args with
             | PList _ => "list indices must be integers or slices, not str"
             | PTuple _ => "tuple indices must be integers or slices, not str"
             | PStr _ => "string indices must be integers, not 'str'"
             | _ => "'" +:+ type_name args +:+ "' object is not subscriptable"
             end)
  end.

(** [args.get(k, dflt)]. *)
Definition get_default (args : pyval) (k : string) (dflt : pyval) : result pyval :=
  match as_mapping args with
  | Some look => Ok (default dflt (look k))
  | None =>
      Err (AttributeError ("'" +:+ type_name args +:+ "' object has no attribute 'get'"))
  end.

(** A key [json.dumps] writes: [str], [int], [float], [bool] or [None]. *)
Definition json_key (k : pyval) : bool :=
  match k with
  | PStr _ | PInt _ | PFloat _ | PBool _ | PNone => true
  | _ => false
  end.

(** The first [dict] key at which [json.dumps(v, default=str)] stops, going
    through [v] as the encoder does; [None] when it writes all of [v]
    (a value it cannot encode otherwise goes through [str]). *)
Fixpoint bad_key (v : pyval) : option pyval :=
  match v with
  | PList l | PTuple l =>
      (fix go (l : list pyval) : option pyval :=
         match l with
         | [] => None
         | x :: l' => match bad_key x with Some k => Some k | None => go l' end
         end) l
  | PDict d =>
      (fix go (d : list (string * pyval)) : option pyval :=
         match d with
         | [] => None
         | (_, x) :: d' => match bad_key x with Some k => Some k | None => go d' end
         end) d
  | PMap items =>
      (fix go (m : list (pyval * pyval)) : option pyval :=
         match m with
         | [] => None
         | (k, x) :: m' =>
             if json_key k
             then match bad_key x with Some k' => Some k' | None => go m' end
             else Some k
         end) items
  | _ => None
  end.

(** ** DataFrames *)

(** A cell: a missing value ([NaN], [None], [NaT]), a number, a boolean, a
    text, or another object ([COther], by its class and its [str()]: a
    timestamp, say). *)
Inductive cell :=
| CNaN
| CNone
| CNaT
| CNum (n : Z)
| CFloat (repr : string)
| CBool (b : bool)
| CStr (s : string)
| COther (cls repr : string).

Record DataFrame := { columns : list string; rows : list (list cell) }.

Definition cell_val (c : cell) : pyval :=
  match c with
  | CNaN => PFloat "nan"
  | CNone => PNone
  | CNaT => PObject "NaTType" "NaT"
  | CNum n => PInt n
  | CFloat r => PFloat r
  | CBool b => PBool b
  | CStr s => PStr s
  | COther cls r => PObject cls r
  end.

(** [pd.isna(c)] *)
Definition is_missing (c : cell) : bool :=
  match c with CNaN | CNone | CNaT => true | _ => false end.

(** [df.head(n)] *)
Definition head (n : nat) (df : DataFrame) : DataFrame :=
  {| columns := columns df; rows := take n (rows df) |}.

(** [df.fillna("")] *)
Definition fillna_empty (df : DataFrame) : DataFrame :=
  {| columns := columns df;
     rows := map (map (fun c => if is_missing c then CStr "" else c)) (rows df) |}.

(** [dict(zip(keys, values))]: a later duplicate key overwrites. *)
Definition dict_of_pairs (kvs : list (string * pyval)) : dict :=
  foldl (fun d kv => dict_set kv.1 kv.2 d) [] kvs.

(** [df.to_dict(orient="records")] *)
Definition to_dict_records (df : DataFrame) : list pyval :=
  map (fun r => PDict (dict_of_pairs (zip (columns df) (map cell_val r)))) (rows df).

(** [len(df)] *)
Definition df_len (df : DataFrame) : nat := length (rows df).

(** [list(df.columns)] *)
Definition column_list (df : DataFrame) : pyval := PList (map PStr (columns df)).

(** A pandas Series: labels and values. *)
Abbreviation Series := (list (pyval * cell)).

(** [series.to_dict()] *)
Definition series_to_dict (s : Series) : pyval :=
  PMap (map (fun kc => (kc.1, cell_val kc.2)) s).

(** What a sandboxed script can leave bound to [result] or [fig]. *)
Inductive pyobj :=
| OFrame (df : DataFrame)
| OSeries (s : Series)
| OVal (v : pyval).

Fixpoint lookup_var (k : string) (vars : list (string * pyobj)) : option pyobj :=
  match vars with
  | [] => None
  | (k', o) :: vars' => if String.eqb k k' then Some o else lookup_var k vars'
  end.

#[global] Instance result_ret : MRet result := fun _ a => Ok a.
#[global] Instance result_bind : MBind result :=
  fun _ _ f r => match r with Ok a => f a | Err e => Err e end.

(** ** store.py *)

(** [data_meta] values: [{"filename", "columns", "row_count"}]. *)
Record DataMeta := {
  filename : string;
  meta_columns : list string;
  meta_row_count : nat
}.

(** [document_meta] values: [{"name", "num_chunks", "entities"}]. *)
Record DocMeta := {
  doc_name : string;
  num_chunks : nat;
  entities : list string
}.

(** One entry of [conversation_history]. A user turn carries only [role]
    and [content]; its other keys are absent and read as [None] by [h.get]. *)
Record Turn := {
  role : string;
  content : string;
  plot_json : pyval;
  table_data : pyval;
  table_columns : pyval
}.

(** The module globals of [store.py]. [data_frames] holds references into
    the heap of DataFrame objects. *)
Record Store := {
  data_frames : gmap string nat;
  data_meta : gmap string DataMeta;
  active_dataset_id : option string;
  document_meta : list (string * DocMeta);
  conversation_history : list Turn
}.

Definition clear_all (st : Store) : Store :=
  {| data_frames := ∅;
     data_meta := ∅;
     active_dataset_id := None;
     document_meta := [];
     conversation_history := [] |}.

Definition with_history (st : Store) (hist : list Turn) : Store :=
  {| data_frames := data_frames st;
     data_meta := data_meta st;
     active_dataset_id := active_dataset_id st;
     document_meta := document_meta st;
     conversation_history := hist |}.

(** The dataset a stored id denotes: the object its reference points to. *)
Definition dataset (st : Store) (h : list DataFrame) (id : string) : option DataFrame :=
  ref ← data_frames st !! id; h !! ref.

(** ** The state of the process *)

(** The globals of [store.py], the heap of DataFrame objects, and the rest
    of what a run can read or change: the vector index of the knowledge
    base, the options of pandas, the random generator, the clock. *)
Record State (W : Type) := {
  store : Store;
  heap : list DataFrame;
  world : W
}.
Arguments store {W} _.
Arguments heap {W} _.
Arguments world {W} _.

Definition with_store {W} (σ : State W) (st : Store) : State W :=
  {| store := st; heap := heap σ; world := world σ |}.

Definition with_heap {W} (σ : State W) (h : list DataFrame) : State W :=
  {| store := store σ; heap := h; world := world σ |}.

(** [df.copy()]: a new object, at the end of the heap. *)
Definition allocate {W} (σ : State W) (df : DataFrame) : State W :=
  with_heap σ (heap σ ++ [df]).

(** ** The model provider's messages *)

Record tool_call := {
  call_id : string;
  fn_name : string;
  fn_arguments : string
}.

(** [response.choices[0].message] *)
Record assistant_message := {
  msg_content : option string;
  tool_calls : list tool_call
}.

Inductive message :=
| Msg (role content : string)
| AssistantMsg (m : assistant_message)
| ToolMsg (name content tool_call_id : string).

(** ** Collaborators *)

(** How a run of [exec(code, allowed_globals, local_vars)] ends: it comes
    to its end with [local_vars] bound, an exception under [Exception]
    leaves it, one outside [Exception] leaves it, or it does not end. *)
Inductive script_end :=
| Finished (local_vars : list (string * pyobj))
| Raised (e : exn)
| RaisedBase (cls msg : string)
| NeverEnds.

(** What the modelled code calls and does not itself define, and the
    process environment. A call of a library returns or raises an exception
    under [Exception]; only a script may also end otherwise.
    - [filter_data] .. [generate_plot]: [services.data_engine], which is
      not among the sources: functions of the table and the arguments they
      are given;
    - [kb_search query top_k w]: [services.knowledge_base.search] taken as
      a whole, a reading of the documents indexed in the world [w] (opening
      the index makes an empty collection where there is none, which holds
      the same documents: none);
    - [py_exec code ref deadline σ]: Python's [exec] of a script whose
      global [df] is bound to the object at [ref], in state [σ], under an
      armed alarm of [deadline] seconds ([None]: no alarm). It gives how the
      run ends and the state it leaves. The script holds the module [pd],
      and through it the builtins and every module of the process: it can
      read and change the store, any object of the heap and the world;
    - [json_text]: the text [json.dumps(_, default=str)] writes for a value
      it accepts;
    - [complete messages tools]: [client.chat.complete] followed by
      [response.choices[0].message]; [tools] tells whether [TOOLS] is offered;
    - [_api_key]: the environment variable [MISTRAL_API_KEY];
    - [sigalrm]: whether [signal.signal(signal.SIGALRM, ...)] succeeds
      (a Unix main thread) or raises [AttributeError] / [ValueError]. *)
Record Collaborators (W : Type) := {
  filter_data : DataFrame → pyval → result DataFrame;
  aggregate_data : DataFrame → pyval → pyval → pyval → result DataFrame;
  describe_data : DataFrame → result dict;
  generate_plot : DataFrame → pyval → pyval → pyval → pyval → result pyval;
  kb_search : pyval → pyval → W → result (list pyval);
  py_exec : pyval → nat → option nat → State W → script_end * State W;
  pio_to_json : pyobj → result string;
  format_exc : exn → string;
  json_loads : string → result pyval;
  json_text : pyval → string;
  complete : list message → bool → result assistant_message;
  frame_summary : DataFrame → string;
  names_repr : list string → string;
  _api_key : string;
  sigalrm : bool
}.
Arguments filter_data {W} _ _ _.
Arguments aggregate_data {W} _ _ _ _ _.
Arguments describe_data {W} _ _.
Arguments generate_plot {W} _ _ _ _ _ _.
Arguments kb_search {W} _ _ _ _.
Arguments py_exec {W} _ _ _ _ _.
Arguments pio_to_json {W} _ _.
Arguments format_exc {W} _ _.
Arguments json_loads {W} _ _.
Arguments json_text {W} _ _.
Arguments complete {W} _ _ _.
Arguments frame_summary {W} _ _.
Arguments names_repr {W} _ _.
Arguments _api_key {W} _.
Arguments sigalrm {W} _.

(** [json.dumps(v, default=str)]: [TypeError] at a key that is not a
    [str], [int], [float], [bool] or [None]. *)
Definition json_dumps {W} (C : Collaborators W) (v : pyval) : result string :=
  match bad_key v with
  | None => Ok (json_text C v)
  | Some k =>
      Err (TypeError ("keys must be str, int, float, bool or None, not " +:+ type_name k))
  end.

(** ** services/sandbox.py *)

Definition timeout_message : string := "Code execution timed out (10s limit).".

(** The table envelope built for a DataFrame [result]. *)
Definition sandbox_table (res : DataFrame) : pyval :=
  PDict [("data", PList (to_dict_records (fillna_empty (head 100 res))));
         ("columns", column_list res);
         ("row_count", PInt (Z.of_nat (df_len res)))].

Definition coerce_result (res : pyobj) : pyval :=
  match res with
  | OFrame df => sandbox_table df
  | OSeries s => series_to_dict s
  | OVal v => v
  end.

(** [output] before the script runs. *)
Definition empty_output : dict :=
  [("result", PNone); ("plot_json", PNone); ("error", PNone)].

Section Sandbox.
Context {W : Type} (C : Collaborators W).

(** The alarm is armed where [SIGALRM] can be. *)
Definition alarm (timeout_seconds : nat) : option nat :=
  if sigalrm C then Some timeout_seconds else None.

(** The run of the script: [df.copy()] is a new object at the end of the
    heap, and the script's [df] is bound to that one. *)
Definition script_run (code : pyval) (df : DataFrame) (timeout_seconds : nat)
    (σ : State W) : script_end * State W :=
  py_exec C code (length (heap σ)) (alarm timeout_seconds) (allocate σ df).

(** The two [except] clauses, [SandboxTimeout] and [Exception]. *)
Definition on_fault (e : exn) (output : dict) : dict :=
  match e with
  | SandboxTimeout => dict_set "error" (PStr timeout_message) output
  | _ => dict_set "error" (PStr (format_exc C e)) output
  end.

(** The [try] body after [exec]: read [fig], then [result]. *)
Definition extract (local_vars : list (string * pyobj)) (output : dict) : dict :=
  let with_fig :=
    match lookup_var "fig" local_vars with
    | Some fig => s ← pio_to_json C fig; Ok (dict_set "plot_json" (PStr s) output)
    | None => Ok output
    end in
  match with_fig with
  | Err e => on_fault e output
  | Ok output1 =>
      match lookup_var "result" local_vars with
      | Some res => dict_set "result" (coerce_result res) output1
      | None => output1
      end
  end.

(** [execute_code(code, df, timeout_seconds)] in state [σ], where [df] is
    the contents of the object passed in: what the caller gets, and the
    state the run leaves. An exception outside [Exception] passes both
    [except] clauses. *)
Definition execute_code (code : pyval) (df : DataFrame) (timeout_seconds : nat)
    (σ : State W) : outcome dict * State W :=
  let '(ended, σ') := script_run code df timeout_seconds σ in
  (match ended with
   | Finished local_vars => Returns (extract local_vars empty_output)
   | Raised e => Returns (on_fault e empty_output)
   | RaisedBase cls msg => RaisesBase cls msg
   | NeverEnds => Diverges
   end, σ').
End Sandbox.
(** ** services/llm.py *)

(** A tool descriptor of [TOOLS]: its name, the parameters its schema lists
    and the ones the schema requires. *)
Record tool_descriptor := {
  tool_name : string;
  tool_properties : list string;
  tool_required : list string
}.

Definition TOOLS : list tool_descriptor :=
  [ {| tool_name := "filter_data";
       tool_properties := ["conditions"];
       tool_required := ["conditions"] |};
    {| tool_name := "aggregate_data";
       tool_properties := ["group_column"; "value_column"; "agg_func"];
       tool_required := ["group_column"; "value_column"; "agg_func"] |};
    {| tool_name := "describe_data";
       tool_properties := [];
       tool_required := [] |};
    {| tool_name := "generate_plot";
       tool_properties := ["plot_type"; "x_column"; "y_column"; "title"];
       tool_required := ["plot_type"; "x_column"] |};
    {| tool_name := "search_documents";
       tool_properties := ["query"; "top_k"];
       tool_required := ["query"] |};
    {| tool_name := "execute_pandas_code";
       tool_properties := ["code"];
       tool_required := ["code"] |} ].

Definition nl : string := String (Ascii.ascii_of_nat 10) "".

Definition prompt_head : string :=
  "You are Lab Co-Pilot, a helpful assistant for laboratory researchers.
You help users analyze experimental data, create visualizations, and answer questions about uploaded research documents.

You have access to the following tools:
- filter_data: Filter the active dataset
- aggregate_data: Group and aggregate data
- describe_data: Get summary statistics
- generate_plot: Create charts (bar, pie, scatter, line, histogram, box)
- search_documents: Search uploaded PDF documents
- execute_pandas_code: Run custom Pandas code on the dataset

Guidelines:
- When the user asks to visualize data, use generate_plot with the appropriate chart type.
- When the user asks questions about their data, use the data tools.
- When the user asks about research papers or scientific topics, use search_documents.
- For complex analyses, use execute_pandas_code.
- Always explain your results in clear, non-technical language.
- If no dataset is loaded, tell the user to upload one first.
".

(** What [store.active_dataset_id] gives a tool:
    [not store.active_dataset_id] holds for [None] and for the empty id;
    otherwise [store.data_frames[store.active_dataset_id]] is a stored
    object or a [KeyError]. *)
Inductive active_lookup :=
| NoDataset
| NotStored (id : string)
| Active (df : DataFrame).

Definition lookup_active (st : Store) (h : list DataFrame) : active_lookup :=
  match active_dataset_id st with
  | None => NoDataset
  | Some id =>
      if String.eqb id "" then NoDataset
      else match dataset st h id with
           | Some df => Active df
           | None => NotStored id
           end
  end.

Definition no_dataset : dict := [("error", PStr "No dataset loaded.")].

(** The table envelope of [filter_data]: at most 50 rows previewed. *)
Definition filter_envelope (res : DataFrame) : dict :=
  [("data", PList (to_dict_records (fillna_empty (head 50 res))));
   ("columns", column_list res);
   ("row_count", PInt (Z.of_nat (df_len res)))].

(** The table envelope of [aggregate_data]: every row. *)
Definition aggregate_envelope (res : DataFrame) : dict :=
  [("data", PList (to_dict_records (fillna_empty res)));
   ("columns", column_list res);
   ("row_count", PInt (Z.of_nat (df_len res)))].

(** The final assistant reply and what is shown with it. *)
Record ResponseData := {
  text : string;
  resp_plot_json : pyval;
  resp_table_data : pyval;
  resp_table_columns : pyval
}.

Definition set_text (rd : ResponseData) (t : string) : ResponseData :=
  {| text := t; resp_plot_json := resp_plot_json rd;
     resp_table_data := resp_table_data rd;
     resp_table_columns := resp_table_columns rd |}.

Definition set_plot (rd : ResponseData) (p : pyval) : ResponseData :=
  {| text := text rd; resp_plot_json := p;
     resp_table_data := resp_table_data rd;
     resp_table_columns := resp_table_columns rd |}.

Definition set_table (rd : ResponseData) (data cols : pyval) : ResponseData :=
  {| text := text rd; resp_plot_json := resp_plot_json rd;
     resp_table_data := data; resp_table_columns := cols |}.

(** [response_data] as [chat] initialises it. *)
Definition blank : ResponseData :=
  {| text := ""; resp_plot_json := PNone; resp_table_data := PNone;
     resp_table_columns := PNone |}.

(** "Extract plot/table from tool result": the three [if]s of the loop body,
    in order. *)
Definition absorb (rd : ResponseData) (tool_result : dict) : ResponseData :=
  let rd1 :=
    match dict_get "plot_json" tool_result with
    | Some p => if py_truthy p then set_plot rd p else rd
    | None => rd
    end in
  let rd2 :=
    match dict_get "data" tool_result with
    | Some data =>
        if is_list data
        then set_table rd1 data (default (PList []) (dict_get "columns" tool_result))
        else rd1
    | None => rd1
    end in
  match dict_get "result" tool_result ≫= as_mapping with
  | Some inner =>
      match inner "data" with
      | Some data => set_table rd2 data (default (PList []) (inner "columns"))
      | None => rd2
      end
  | None => rd2
  end.

Definition turn_message (t : Turn) : message := Msg (role t) (content t).

(** [history[-20:]] *)
Definition last_turns (n : nat) (hist : list Turn) : list Turn :=
  drop (length hist - n) hist.

Definition user_turn (user_message : string) : Turn :=
  {| role := "user"; content := user_message;
     plot_json := PNone; table_data := PNone; table_columns := PNone |}.

Definition assistant_turn (rd : ResponseData) : Turn :=
  {| role := "assistant"; content := text rd;
     plot_json := resp_plot_json rd;
     table_data := resp_table_data rd;
     table_columns := resp_table_columns rd |}.

(** The loop variables of the tool loop, [response_data] and [messages],
    and the state of the process. *)
Record loop_state (W : Type) := {
  resp : ResponseData;
  msgs : list message;
  sys : State W
}.
Arguments resp {W} _.
Arguments msgs {W} _.
Arguments sys {W} _.

Definition append_turn (st : Store) (t : Turn) : Store :=
  with_history st (conversation_history st ++ [t]).

(** [store.conversation_history.append(t)] *)
Definition record_turn {W} (σ : State W) (t : Turn) : State W :=
  with_store σ (append_turn (store σ) t).

(** What a tool finds under [store.active_dataset_id] in a state. *)
Definition active_of {W} (σ : State W) : active_lookup :=
  lookup_active (store σ) (heap σ).

Section LLM.
Context {W : Type} (C : Collaborators W).

(** [_get_client()]: no client without a key. *)
Definition _get_client : result unit :=
  if String.eqb (_api_key C) "" then
    Err (RuntimeError "MISTRAL_API_KEY is not set. Add it to backend/.env")
  else Ok tt.

Definition _build_system_prompt (st : Store) (h : list DataFrame) : string :=
  let dataset_info :=
    match lookup_active st h, active_dataset_id st with
    | Active df, Some id =>
        let fname := default "unknown" (filename <$> data_meta st !! id) in
        nl +:+ nl +:+ "Currently loaded dataset: '" +:+ fname +:+ "'" +:+ nl
           +:+ frame_summary C df
    | _, _ => ""
    end in
  let doc_names := map (fun m => doc_name m.2) (document_meta st) in
  let doc_info :=
    match doc_names with
    | [] => ""
    | _ => nl +:+ nl +:+ "Uploaded documents: " +:+ names_repr C doc_names +:+ nl
    end in
  prompt_head +:+ dataset_info +:+ doc_info.

(** [_execute_tool(name, args)] in state [σ]: the envelope, and the state
    afterwards. Only [execute_code] leaves another state. *)
Definition _execute_tool (name : string) (args : pyval) (σ : State W)
    : outcome dict * State W :=
  if String.eqb name "filter_data" then
    match active_of σ with
    | NoDataset => (Returns no_dataset, σ)
    | NotStored id => (Raises (KeyError id), σ)
    | Active df =>
        (lift (conditions ← getitem args "conditions";
               res ← filter_data C df conditions;
               Ok (filter_envelope res)), σ)
    end
  else if String.eqb name "aggregate_data" then
    match active_of σ with
    | NoDataset => (Returns no_dataset, σ)
    | NotStored id => (Raises (KeyError id), σ)
    | Active df =>
        (lift (group_column ← getitem args "group_column";
               value_column ← getitem args "value_column";
               agg_func ← get_default args "agg_func" (PStr "mean");
               res ← aggregate_data C df group_column value_column agg_func;
               Ok (aggregate_envelope res)), σ)
    end
  else if String.eqb name "describe_data" then
    match active_of σ with
    | NoDataset => (Returns no_dataset, σ)
    | NotStored id => (Raises (KeyError id), σ)
    | Active df => (lift (describe_data C df), σ)
    end
  else if String.eqb name "generate_plot" then
    match active_of σ with
    | NoDataset => (Returns no_dataset, σ)
    | NotStored id => (Raises (KeyError id), σ)
    | Active df =>
        (lift (plot_type ← getitem args "plot_type";
               x_column ← getitem args "x_column";
               y_column ← get_default args "y_column" PNone;
               title ← get_default args "title" PNone;
               p ← generate_plot C df plot_type x_column y_column title;
               plot_type' ← getitem args "plot_type";
               Ok [("plot_json", p); ("plot_type", plot_type')]), σ)
    end
  else if String.eqb name "search_documents" then
    (lift (query ← getitem args "query";
           top_k ← get_default args "top_k" (PInt 5);
           results ← kb_search C query top_k (world σ);
           Ok [("results", PList results)]), σ)
  else if String.eqb name "execute_pandas_code" then
    match active_of σ with
    | NoDataset => (Returns no_dataset, σ)
    | NotStored id => (Raises (KeyError id), σ)
    | Active df =>
        match getitem args "code" with
        | Err e => (Raises e, σ)
        | Ok code => execute_code C code df 10 σ
        end
    end
  else
    (Returns [("error", PStr ("Unknown tool: " +:+ name))], σ).

(** "Build messages": the system prompt, the last 20 turns, the new
    user message. *)
Definition build_messages (st : Store) (h : list DataFrame) (user_message : string)
    : list message :=
  [Msg "system" (_build_system_prompt st h)]
  ++ map turn_message (last_turns 20 (conversation_history st))
  ++ [Msg "user" user_message].

(** [for tool_call in assistant_msg.tool_calls: ...]. An exception leaves
    the loop with [response_data] as the iterations so far made it; the one
    of [json.dumps] comes after the envelope was read. *)
Fixpoint run_tool_calls (calls : list tool_call) (ls : loop_state W)
    : outcome unit * loop_state W :=
  match calls with
  | [] => (Returns tt, ls)
  | tc :: rest =>
      match json_loads C (fn_arguments tc) with
      | Err e => (Raises e, ls)
      | Ok fn_args =>
          let '(done, σ') := _execute_tool (fn_name tc) fn_args (sys ls) in
          match done with
          | Returns tool_result =>
              let rd := absorb (resp ls) tool_result in
              match json_dumps C (PDict tool_result) with
              | Ok s =>
                  run_tool_calls rest
                    {| resp := rd;
                       msgs := msgs ls ++ [ToolMsg (fn_name tc) s (call_id tc)];
                       sys := σ' |}
              | Err e => (Raises e, {| resp := rd; msgs := msgs ls; sys := σ' |})
              end
          | Raises e => (Raises e, {| resp := resp ls; msgs := msgs ls; sys := σ' |})
          | RaisesBase cls msg =>
              (RaisesBase cls msg, {| resp := resp ls; msgs := msgs ls; sys := σ' |})
          | Diverges => (Diverges, {| resp := resp ls; msgs := msgs ls; sys := σ' |})
          end
      end
  end.

(** The [try] block of [chat]: how it ends, [response_data] and the state. *)
Definition chat_try (messages : list message) (rd0 : ResponseData) (σ : State W)
    : outcome unit * ResponseData * State W :=
  match complete C messages true with
  | Err e => (Raises e, rd0, σ)
  | Ok assistant_msg =>
      match tool_calls assistant_msg with
      | [] => (Returns tt, set_text rd0 (default "" (msg_content assistant_msg)), σ)
      | calls =>
          let '(looped, ls) :=
            run_tool_calls calls
              {| resp := rd0; msgs := messages ++ [AssistantMsg assistant_msg]; sys := σ |} in
          match looped with
          | Returns _ =>
              match complete C (msgs ls) false with
              | Ok reply => (Returns tt, set_text (resp ls) (default "" (msg_content reply)),
                             sys ls)
              | Err e => (Raises e, resp ls, sys ls)
              end
          | Raises e => (Raises e, resp ls, sys ls)
          | RaisesBase cls msg => (RaisesBase cls msg, resp ls, sys ls)
          | Diverges => (Diverges, resp ls, sys ls)
          end
      end
  end.

(** What follows the [try] block: [except Exception] turns an exception
    into the reply's text, the assistant turn is recorded, and the reply is
    returned. An exception outside [Exception] is not caught, and a block
    that does not end has nothing after it. *)
Definition chat_finish (tried : outcome unit * ResponseData * State W)
    : outcome ResponseData * State W :=
  let '(ended, rd, σ) := tried in
  match ended with
  | Returns _ => (Returns rd, record_turn σ (assistant_turn rd))
  | Raises e =>
      let rd' := set_text rd ("I encountered an error: " +:+ exn_str e) in
      (Returns rd', record_turn σ (assistant_turn rd'))
  | RaisesBase cls msg => (RaisesBase cls msg, σ)
  | Diverges => (Diverges, σ)
  end.

(** [chat(user_message)]: what the caller gets, and the state it leaves. *)
Definition chat (user_message : string) (σ : State W) : outcome ResponseData * State W :=
  match _get_client with
  | Err e => (Raises e, σ)
  | Ok client =>
      let messages := build_messages (store σ) (heap σ) user_message in
      let σ1 := record_turn σ (user_turn user_message) in
      chat_finish (chat_try messages blank σ1)
  end.
End LLM.

(** ** routers/chat.py *)

Record ChatHistoryItem := {
  item_role : string;
  item_content : string;
  item_plot_json : pyval;
  item_table_data : pyval;
  item_table_columns : pyval
}.

(** [GET /history] *)
Definition get_history (st : Store) : list ChatHistoryItem :=
  map (fun h => {| item_role := role h; item_content := content h;
                   item_plot_json := plot_json h;
                   item_table_data := table_data h;
                   item_table_columns := table_columns h |})
      (conversation_history st).

(** [POST /clear]: [store.conversation_history.clear()] *)
Definition clear_history (st : Store) : Store * dict :=
  (with_history st [], [("status", PStr "cleared")]).

(** ** Shapes of envelopes, and the tools' names *)

(** The tools that start with [if not store.active_dataset_id]. *)
Definition dataset_tools : list string :=
  ["filter_data"; "aggregate_data"; "describe_data"; "generate_plot";
   "execute_pandas_code"].

Definition requires_dataset (name : string) : bool :=
  existsb (String.eqb name) dataset_tools.

Definition known_tool (name : string) : bool :=
  existsb (String.eqb name) (map tool_name TOOLS).

(** The ["required"] list of the tool's schema. *)
Definition required_of (name : string) : list string :=
  match find (fun td => String.eqb name (tool_name td)) TOOLS with
  | Some td => tool_required td
  | None => []
  end.


(** The text an [except] clause of the sandbox stores under ["error"]. *)
Definition fault_text {W} (C : Collaborators W) (e : exn) : string :=
  match e with
  | SandboxTimeout => timeout_message
  | _ => format_exc C e
  end.

(** The number of rows a table envelope previews under ["data"]. *)
Definition preview_length (d : dict) : option nat :=
  match dict_get "data" d with
  | Some (PList l) => Some (length l)
  | _ => None
  end.

(** ** What a tool result yields *)

(** The chart a tool result yields: a ["plot_json"] that is present and
    truthy. *)
Definition chart_of (d : dict) : option pyval :=
  match dict_get "plot_json" d with
  | Some p => if py_truthy p then Some p else None
  | None => None
  end.

(** The table (rows, column names) a tool result yields: the ["data"] of a
    nested ["result"] map, or else a top-level ["data"] list. *)
Definition table_of (d : dict) : option (pyval * pyval) :=
  let top :=
    match dict_get "data" d with
    | Some data =>
        if is_list data then Some (data, default (PList []) (dict_get "columns" d)) else None
    | None => None
    end in
  match dict_get "result" d ≫= as_mapping with
  | Some inner =>
      match inner "data" with
      | Some data => Some (data, default (PList []) (inner "columns"))
      | None => top
      end
  | None => top
  end.

(** The envelopes the tool loop reads, in the order of the model's tool
    calls: those of the calls up to the first that does not return, or whose
    envelope [json.dumps] refuses (that envelope is read too). *)
Fixpoint tool_results {W} (C : Collaborators W) (calls : list tool_call) (σ : State W)
    : list dict :=
  match calls with
  | [] => []
  | tc :: rest =>
      match json_loads C (fn_arguments tc) with
      | Err _ => []
      | Ok fn_args =>
          let '(done, σ') := _execute_tool C (fn_name tc) fn_args σ in
          match done with
          | Returns tool_result =>
              tool_result ::
                match json_dumps C (PDict tool_result) with
                | Ok _ => tool_results C rest σ'
                | Err _ => []
                end
          | _ => []
          end
      end
  end.

(** ** services/doc_processor.py *)

(** [text[start:stop]] for a sequence of [n] items: a negative bound counts
    from the end, and both bounds are clamped to [0 .. n]. *)
Definition slice_bound (n i : Z) : Z :=
  if (i <? 0)%Z then Z.max (i + n) 0 else Z.min i n.

Definition py_slice {A} (l : list A) (start stop : Z) : list A :=
  let n := Z.of_nat (length l) in
  let lo := slice_bound n start in
  let hi := slice_bound n stop in
  take (Z.to_nat (hi - lo)) (drop (Z.to_nat lo) l).

(** A spaCy entity: [ent.text], [ent.label_]. *)
Record entity (char : Type) := {
  ent_text : list char;
  ent_label : list char
}.
Arguments ent_text {char} e.
Arguments ent_label {char} e.

(** What [import spacy] and [spacy.load] find: no spaCy at all, or spaCy
    with each of the two models present or not. A loaded model maps a text
    to [doc.ents]. *)
Inductive spacy_install (char : Type) :=
| NoSpacy
| Spacy (en_core_sci_sm en_core_web_sm : option (list char → list (entity char))).
Arguments NoSpacy {char}.
Arguments Spacy {char} en_core_sci_sm en_core_web_sm.

Section DocProcessor.
(** A text is a sequence of characters; [isspace] tells the ones that
    [str.strip] removes, [lower] is [str.lower]. *)
Context {char : Type} `{EqDecision char}.
Context (isspace : char → bool) (lower : list char → list char).

Fixpoint lstrip (s : list char) : list char :=
  match s with
  | [] => []
  | c :: s' => if isspace c then lstrip s' else s
  end.

Definition rstrip (s : list char) : list char := reverse (lstrip (reverse s)).

(** [s.strip()] *)
Definition strip (s : list char) : list char := rstrip (lstrip s).

Definition nonempty (s : list char) : bool :=
  match s with [] => false | _ => true end.

(** The [while start < len(text)] loop of [chunk_text], run for at most
    [fuel] iterations; [None] when they do not suffice. *)
Fixpoint chunk_loop (fuel : nat) (text : list char) (chunk_size overlap start : Z)
    (chunks : list (list char)) : option (list (list char)) :=
  match fuel with
  | 0 => None
  | S fuel' =>
      if (start <? Z.of_nat (length text))%Z then
        let stop := (start + chunk_size)%Z in
        let chunk := py_slice text start stop in
        chunk_loop fuel' text chunk_size overlap (stop - overlap)%Z (chunks ++ [strip chunk])
      else Some chunks
  end.

(** [chunk_text(text, chunk_size, overlap)] *)
Definition chunk_text (fuel : nat) (text : list char) (chunk_size overlap : Z)
    : option (list (list char)) :=
  match text with
  | [] => Some []
  | _ => base.filter (fun c => nonempty c = true) <$> chunk_loop fuel text chunk_size overlap 0 []
  end.

(** The loop over [doc.ents]: entities not yet [seen], by lower-cased text
    and label. *)
Fixpoint collect_entities (ents : list (entity char)) (seen : list (list char * list char))
    : list (entity char) :=
  match ents with
  | [] => []
  | ent :: ents' =>
      let key := (lower (ent_text ent), ent_label ent) in
      if decide (key ∈ seen) then collect_entities ents' seen
      else ent :: collect_entities ents' (key :: seen)
  end.

(** [extract_entities_simple(text)]: [ImportError] gives the empty list;
    an [OSError] of the second [spacy.load] is not caught. *)
Definition extract_entities_simple (spacy : spacy_install char) (text : list char)
    : result (list (entity char)) :=
  match spacy with
  | NoSpacy => Ok []
  | Spacy sci web =>
      nlp ← match sci with
            | Some nlp => Ok nlp
            | None =>
                match web with
                | Some nlp => Ok nlp
                | None => Err (PyException "OSError"
                           "[E050] Can't find model 'en_core_web_sm'. It doesn't seem to be a Python package or a valid path to a data directory.")
                end
            end;
      Ok (take 50 (collect_entities (nlp (py_slice text 0 10000)) []))
  end.
End DocProcessor.


(** ** A concrete laboratory

    Instances of the collaborators, and a few stores, on which the
    definitions above can be run. The world is a number: by how much the
    option [display.max_rows] of pandas is above the 60 it starts with. *)

Definition cell_eqb (a b : cell) : bool :=
  match a, b with
  | CNaN, CNaN | CNone, CNone | CNaT, CNaT => true
  | CNum m, CNum n => (m =? n)%Z
  | CBool x, CBool y => Bool.eqb x y
  | CStr s, CStr t | CFloat s, CFloat t => String.eqb s t
  | COther c s, COther d t => String.eqb c d && String.eqb s t
  | _, _ => false
  end.

Fixpoint column_index (c : string) (cols : list string) : option nat :=
  match cols with
  | [] => None
  | c' :: cols' => if String.eqb c c' then Some 0 else S <$> column_index c cols'
  end.

(** The distinct cells of a column, in order of first appearance. *)
Fixpoint distinct (seen : list cell) (l : list cell) : list cell :=
  match l with
  | [] => []
  | c :: l' =>
      if existsb (cell_eqb c) seen then distinct seen l'
      else c :: distinct (c :: seen) l'
  end.

(** Modelled from the spec: [services.data_engine.aggregate_data] is not
    among the sources; the spec gives it as returning "a table with one row
    per distinct gene value", "row count equal to distinct gene count". This
    one counts the rows of each group. *)
Definition group_count (df : DataFrame) (group_column value_column agg_func : pyval)
    : result DataFrame :=
  match group_column with
  | PStr g =>
      match column_index g (columns df) with
      | Some i =>
          let keys := map (fun r => default CNaN (r !! i)) (rows df) in
          Ok {| columns := [g; "count"];
                rows := map (fun k => [k; CNum (Z.of_nat (length (filter (fun c => cell_eqb k c = true) keys)))])
                            (distinct [] keys) |}
      | None => Err (KeyError g)
      end
  | _ => Err (TypeError "unhashable column label")
  end.

(** A JSON string literal for a text without control characters. *)
Definition json_string (s : string) : string :=
  dq +:+ String.concat ""
           (map (fun c => if Ascii.eqb c dq_char || (Ascii.nat_of_ascii c =? 92)
                          then backslash +:+ String c "" else String c "")
                (String.list_ascii_of_string s))
     +:+ dq.

(** A JSON object of string members: [{"k": "v", ...}]. *)
Definition json_obj (members : list (string * string)) : string :=
  "{" +:+ String.concat ", " (map (fun kv => json_string kv.1 +:+ ": " +:+ json_string kv.2)
                                  members) +:+ "}".

(** The text [json.dumps(v, default=str)] writes, for texts without control
    characters. *)
Fixpoint json_print (v : pyval) : string :=
  match v with
  | PNone => "null"
  | PBool b => if b then "true" else "false"
  | PInt n => pretty n
  | PFloat r => if String.eqb r "nan" then "NaN" else r
  | PStr s | PObject _ s => json_string s
  | PList l | PTuple l => "[" +:+ String.concat ", " (map json_print l) +:+ "]"
  | PDict d =>
      "{" +:+ String.concat ", "
                (map (fun kv => match kv with
                                | (k, x) => json_string k +:+ ": " +:+ json_print x
                                end) d) +:+ "}"
  | PMap m =>
      "{" +:+ String.concat ", "
                (map (fun kv => match kv with
                                | (k, x) =>
                                    match k with
                                    | PStr s => json_string s
                                    | _ => dq +:+ json_print k +:+ dq
                                    end +:+ ": " +:+ json_print x
                                end) m) +:+ "}"
  end.

Definition drop_rows_script : string := "df.drop(df.index, inplace=True)".
Definition busy_loop_script : string := "while True: pass".
Definition counting_script : string :=
  "pd.options.display.max_rows += 1; result = pd.options.display.max_rows".
Definition tuple_keys_script : string := "result = {(1, 2): 3, 'data': []}".

(** A loop that swallows whatever is raised in it. *)
Definition stubborn_loop_script : string :=
  "while True:" +:+ nl +:+
  "    try:" +:+ nl +:+
  "        while True: pass" +:+ nl +:+
  "    except: pass".

(** Scripts that go through [pd] to the builtins, and from there to the
    store or to an exception class outside [Exception]. *)
Definition forget_datasets_script : string :=
  "pd.core.common.builtins.__import__('store').data_frames.clear()".
Definition forget_history_script : string :=
  "pd.core.common.builtins.__import__('store').conversation_history.clear()".
Definition interrupt_script : string :=
  "raise pd.core.common.builtins.KeyboardInterrupt()".

Definition plot_args (plot_type : string) : string :=
  json_obj [("plot_type", plot_type); ("x_column", "gene")].

Definition code_args (script : string) : string := json_obj [("code", script)].

(** A reader for the argument texts used below. *)
Definition read_args (s : string) : result pyval :=
  if String.eqb s "{}" then Ok (PDict [])
  else if String.eqb s (plot_args "bar")
  then Ok (PDict [("plot_type", PStr "bar"); ("x_column", PStr "gene")])
  else if String.eqb s (plot_args "pie")
  then Ok (PDict [("plot_type", PStr "pie"); ("x_column", PStr "gene")])
  else match find (fun script => String.eqb s (code_args script))
                  [drop_rows_script; busy_loop_script; counting_script; tuple_keys_script;
                   forget_datasets_script; forget_history_script; interrupt_script] with
       | Some script => Ok (PDict [("code", PStr script)])
       | None => Err (PyException "JSONDecodeError" "Expecting value")
       end.

(** An interpreter for a few scripts that keep to their [df] and to
    [pd]. The busy loop ends only if an alarm is armed, the stubborn one
    never; the counting one raises an option of pandas by one and gives its
    new value. *)
Definition run_script (code : pyval) (ref : nat) (deadline : option nat) (σ : State nat)
    : script_end * State nat :=
  match code with
  | PStr s =>
      match heap σ !! ref with
      | None => (Raised (PyException "NameError" "name 'df' is not defined"), σ)
      | Some df =>
          if String.eqb s "result = df" then (Finished [("result", OFrame df)], σ)
          else if String.eqb s drop_rows_script
          then (Finished [],
                with_heap σ (<[ref := {| columns := columns df; rows := [] |}]> (heap σ)))
          else if String.eqb s busy_loop_script
          then (match deadline with Some _ => Raised SandboxTimeout | None => NeverEnds end, σ)
          else if String.eqb s stubborn_loop_script then (NeverEnds, σ)
          else if String.eqb s counting_script
          then (Finished [("result", OVal (PInt (61 + Z.of_nat (world σ))))],
                {| store := store σ; heap := heap σ; world := S (world σ) |})
          else if String.eqb s tuple_keys_script
          then (Finished [("result", OVal (PMap [(PTuple [PInt 1; PInt 2], PInt 3);
                                                 (PStr "data", PList [])]))], σ)
          else (Raised (PyException "SyntaxError" "invalid syntax"), σ)
      end
  | _ => (Raised (TypeError "exec() arg 1 must be a string, bytes or code object"), σ)
  end.

(** An interpreter that also knows the scripts that leave their namespace. *)
Definition run_any_script (code : pyval) (ref : nat) (deadline : option nat) (σ : State nat)
    : script_end * State nat :=
  match code with
  | PStr s =>
      if String.eqb s forget_datasets_script
      then (Finished [],
            with_store σ {| data_frames := ∅;
                            data_meta := data_meta (store σ);
                            active_dataset_id := active_dataset_id (store σ);
                            document_meta := document_meta (store σ);
                            conversation_history := conversation_history (store σ) |})
      else if String.eqb s forget_history_script
      then (Finished [], with_store σ (with_history (store σ) []))
      else if String.eqb s interrupt_script
      then (RaisedBase "KeyboardInterrupt" "", σ)
      else run_script code ref deadline σ
  | _ => run_script code ref deadline σ
  end.

Definition last_content (messages : list message) : string :=
  match last messages with
  | Some (Msg _ c) => c
  | _ => ""
  end.

Definition one_call (name arguments : string) : result assistant_message :=
  Ok {| msg_content := None;
        tool_calls := [ {| call_id := "c1"; fn_name := name; fn_arguments := arguments |} ] |}.

(** A scripted model: it answers some requests with tool calls, and fails
    on another. *)
Definition scripted_model (messages : list message) (tools : bool)
    : result assistant_message :=
  if tools then
    let c := last_content messages in
    if String.eqb c "two charts" then
      Ok {| msg_content := None;
            tool_calls := [ {| call_id := "c1"; fn_name := "generate_plot";
                               fn_arguments := plot_args "bar" |};
                            {| call_id := "c2"; fn_name := "generate_plot";
                               fn_arguments := plot_args "pie" |} ] |}
    else if String.eqb c "drop everything"
    then one_call "execute_pandas_code" (code_args drop_rows_script)
    else if String.eqb c "spin"
    then one_call "execute_pandas_code" (code_args busy_loop_script)
    else if String.eqb c "one more row"
    then one_call "execute_pandas_code" (code_args counting_script)
    else if String.eqb c "pairs"
    then one_call "execute_pandas_code" (code_args tuple_keys_script)
    else if String.eqb c "forget the datasets"
    then one_call "execute_pandas_code" (code_args forget_datasets_script)
    else if String.eqb c "forget what we said"
    then one_call "execute_pandas_code" (code_args forget_history_script)
    else if String.eqb c "stop"
    then one_call "execute_pandas_code" (code_args interrupt_script)
    else if String.eqb c "fail" then
      Err (PyException "SDKError" "API error occurred: Status 401")
    else Ok {| msg_content := Some "Hello."; tool_calls := [] |}
  else Ok {| msg_content := Some "Here is what I found."; tool_calls := [] |}.

(** [repr] of a list of names. *)
Definition list_repr (names : list string) : string :=
  "[" +:+ String.concat ", " (map py_repr names) +:+ "]".

Definition lab_with (interpreter : pyval → nat → option nat → State nat → script_end * State nat)
    (key : string) (alarm : bool) : Collaborators nat :=
  {| filter_data := fun df _ => Ok df;
     aggregate_data := group_count;
     describe_data := fun df => Ok [("rows", PInt (Z.of_nat (df_len df)))];
     generate_plot := fun _ plot_type _ _ _ =>
       match plot_type with
       | PStr t => Ok (PStr ("figure:" +:+ t))
       | _ => Err (PyException "ValueError" "Unsupported plot type")
       end;
     kb_search := fun _ _ _ => Ok [];
     py_exec := interpreter;
     pio_to_json := fun _ => Ok "{}";
     format_exc := fun e => "Traceback (most recent call last): " +:+ exn_str e;
     json_loads := read_args;
     json_text := json_print;
     complete := scripted_model;
     frame_summary := fun df => "Columns: " +:+ list_repr (columns df) +:+ nl;
     names_repr := list_repr;
     _api_key := key;
     sigalrm := alarm |}.

(** The laboratory whose scripts keep to their [df], and the one whose
    scripts need not. *)
Definition lab : string → bool → Collaborators nat := lab_with run_script.
Definition open_lab : string → bool → Collaborators nat := lab_with run_any_script.

Definition genes : DataFrame :=
  {| columns := ["gene"; "expression"];
     rows := [[CStr "BRCA1"; CNum 2]; [CStr "TP53"; CNum 1]; [CStr "BRCA1"; CNaN]] |}.

(** 51 rows, each in a group of its own. *)
Definition wide : DataFrame :=
  {| columns := ["gene"; "expression"];
     rows := map (fun i => [CNum (Z.of_nat i); CNum 1]) (seq 0 51) |}.

(** 101 rows. *)
Definition tall : DataFrame :=
  {| columns := ["gene"; "expression"];
     rows := map (fun i => [CNum (Z.of_nat i); CNum 1]) (seq 0 101) |}.

Definition store_of (ref : nat) (hist : list Turn) : Store :=
  {| data_frames := {[ "a1b2c3" := ref ]};
     data_meta := {[ "a1b2c3" := {| filename := "genes.csv";
                                    meta_columns := ["gene"; "expression"];
                                    meta_row_count := 3 |} ]};
     active_dataset_id := Some "a1b2c3";
     document_meta := [];
     conversation_history := hist |}.

Definition empty_store : Store :=
  {| data_frames := ∅; data_meta := ∅; active_dataset_id := None;
     document_meta := []; conversation_history := [] |}.

Definition greeting : list Turn :=
  [ user_turn "hi";
    {| role := "assistant"; content := "Hello."; plot_json := PNone;
       table_data := PNone; table_columns := PNone |} ].

(** A state with one object on the heap, stored as the active dataset. *)
Definition bench (df : DataFrame) (hist : list Turn) : State nat :=
  {| store := store_of 0 hist; heap := [df]; world := 0 |}.

(** The ASCII characters for which [str.isspace] holds. *)
Definition ascii_isspace (c : Ascii.ascii) : bool :=
  let n := Ascii.nat_of_ascii c in
  (n =? 32) || ((9 <=? n) && (n <=? 13)) || ((28 <=? n) && (n <=? 31)).

(** A text of ASCII characters. *)
Definition chars (s : string) : list Ascii.ascii := String.list_ascii_of_string s.


(** The key under which [extract_entities_simple] remembers an entity. *)
Definition entity_key {char} (lower : list char → list char) (e : entity char)
    : list char * list char :=
  (lower (ent_text e), ent_label e).


(** ** services/knowledge_base.py *)

(** The arguments of [collection.add]. *)
Record add_request (A : Type) := {
  add_documents : list A;
  add_ids : list string;
  add_metadatas : list dict
}.
Arguments add_documents {A} _.
Arguments add_ids {A} _.
Arguments add_metadatas {A} _.

(** [f"{doc_id}_chunk_{i}"] *)
Definition chunk_id (doc_id : string) (i : nat) : string :=
  doc_id +:+ "_chunk_" +:+ pretty i.

Definition chunk_metadata (doc_name : string) (i : nat) : dict :=
  [("document", PStr doc_name); ("chunk_index", PInt (Z.of_nat i))].

Definition add_request_of {A} (doc_id doc_name : string) (chunks : list A) : add_request A :=
  {| add_documents := chunks;
     add_ids := chunk_id doc_id <$> seq 0 (length chunks);
     add_metadatas := chunk_metadata doc_name <$> seq 0 (length chunks) |}.

(** [add_document(doc_id, doc_name, chunks)] on a vector store in state
    [kb]; [collection_add] stands for opening the client and the collection
    and calling [collection.add], which may raise. *)
Definition add_document {A K} (collection_add : add_request A → K → result unit * K)
    (doc_id doc_name : string) (chunks : list A) (kb : K) : result nat * K :=
  match chunks with
  | [] => (Ok 0, kb)
  | _ =>
      let '(added, kb') := collection_add (add_request_of doc_id doc_name chunks) kb in
      (_ ← added; Ok (length chunks), kb')
  end.

(** ** routers/data.py and routers/chat.py: the HTTP boundary *)

(** A handler responds, or raises [HTTPException(status_code, detail)]. *)
Inductive http (A : Type) :=
| Respond (a : A)
| HTTPException (status_code : nat) (detail : string).
Arguments Respond {A} a.
Arguments HTTPException {A} status_code detail.

Definition no_dataset_found {A} : http A :=
  HTTPException 404 "No dataset found. Upload a file first.".

(** [x or y] on optional ids: an empty id is falsy. *)
Definition id_or (x y : option string) : option string :=
  match x with
  | Some id => if String.eqb id "" then y else x
  | None => y
  end.

(** [_get_df(file_id)] *)
Definition _get_df (file_id : option string) (st : Store) (h : list DataFrame)
    : http (string * DataFrame) :=
  match id_or file_id (active_dataset_id st) with
  | None => no_dataset_found
  | Some fid =>
      if String.eqb fid "" then no_dataset_found
      else match dataset st h fid with
           | Some df => Respond (fid, df)
           | None => no_dataset_found
           end
  end.

Record UploadDataResponse := {
  up_file_id : string;
  up_filename : string;
  up_columns : list string;
  up_row_count : nat;
  up_preview : list pyval
}.

Record DataResponse := {
  resp_data : list pyval;
  resp_columns : list string;
  resp_row_count : nat
}.

Definition with_document_meta (st : Store) (dm : list (string * DocMeta)) : Store :=
  {| data_frames := data_frames st;
     data_meta := data_meta st;
     active_dataset_id := active_dataset_id st;
     document_meta := dm;
     conversation_history := conversation_history st |}.

Section Routers.
(** [load_file] is [services.data_engine.load_file]; [file_id] stands for
    [uuid.uuid4().hex[:12]]; [make_response] for the constructor of
    [models.schemas.ChatMessageResponse]; [strip] is [str.strip]. *)
Context {bytes Reply W : Type}.
Context (load_file : bytes → string → result DataFrame).
Context (make_response : string → pyval → pyval → pyval → result Reply).
Context (C : Collaborators W).
Context (strip : string → string).

(** [POST /upload] *)
Definition upload_data (file_id : string) (filename : option string) (contents : bytes)
    (st : Store) (h : list DataFrame)
    : http UploadDataResponse * Store * list DataFrame :=
  match filename with
  | None => (HTTPException 400 "No filename provided.", st, h)
  | Some name =>
      if String.eqb name "" then (HTTPException 400 "No filename provided.", st, h)
      else match load_file contents name with
           | Err e => (HTTPException 400 ("Failed to parse file: " +:+ exn_str e), st, h)
           | Ok df =>
               let ref := length h in
               let st' :=
                 {| data_frames := <[file_id := ref]> (data_frames st);
                    data_meta := <[file_id := {| filename := name;
                                                 meta_columns := columns df;
                                                 meta_row_count := df_len df |}]>
                                   (data_meta st);
                    active_dataset_id := Some file_id;
                    document_meta := document_meta st;
                    conversation_history := conversation_history st |} in
               (Respond {| up_file_id := file_id;
                           up_filename := name;
                           up_columns := columns df;
                           up_row_count := df_len df;
                           up_preview := to_dict_records (fillna_empty (head 5 df)) |},
                st', h ++ [df])
           end
  end.

(** [POST /filter] *)
Definition filter_endpoint (file_id : option string) (conditions : string)
    (st : Store) (h : list DataFrame) : http DataResponse :=
  match _get_df file_id st h with
  | HTTPException code detail => HTTPException code detail
  | Respond (fid, df) =>
      match filter_data C df (PStr conditions) with
      | Err e => HTTPException 400 ("Filter error: " +:+ exn_str e)
      | Ok res =>
          Respond {| resp_data := to_dict_records (fillna_empty (head 100 res));
                     resp_columns := columns res;
                     resp_row_count := df_len res |}
      end
  end.

(** [POST /aggregate] *)
Definition aggregate_endpoint (file_id : option string)
    (group_column value_column agg_func : string)
    (st : Store) (h : list DataFrame) : http DataResponse :=
  match _get_df file_id st h with
  | HTTPException code detail => HTTPException code detail
  | Respond (fid, df) =>
      match aggregate_data C df (PStr group_column) (PStr value_column) (PStr agg_func) with
      | Err e => HTTPException 400 ("Aggregation error: " +:+ exn_str e)
      | Ok res =>
          Respond {| resp_data := to_dict_records (fillna_empty res);
                     resp_columns := columns res;
                     resp_row_count := df_len res |}
      end
  end.

(** [POST /message]. The two handlers catch what is under [Exception]; an
    exception of [chat] outside it, and one of the response constructor,
    leave [send_message]. *)
Definition send_message (message : string) (σ : State W)
    : outcome (http Reply) * State W :=
  if String.eqb (strip message) ""
  then (Returns (HTTPException 400 "Message cannot be empty."), σ)
  else
    let '(chatted, σ') := chat C message σ in
    (match chatted with
     | Returns result =>
         match make_response (text result) (resp_plot_json result)
                 (resp_table_data result) (resp_table_columns result) with
         | Ok reply => Returns (Respond reply)
         | Err e => Raises e
         end
     | Raises (RuntimeError msg) => Returns (HTTPException 500 msg)
     | Raises e => Returns (HTTPException 500 ("Chat error: " +:+ exn_str e))
     | RaisesBase cls msg => RaisesBase cls msg
     | Diverges => Diverges
     end, σ').

(** The states the server can be in: it starts with everything empty, and
    each request handler, and each call of [store.clear_all], leads from one
    state to the next; whatever a sandboxed script does is part of the
    handler that runs it. A document upload changes [document_meta] and
    the vector index, which is in the world. *)
Inductive reachable : State W → Prop :=
| reach_start w :
    reachable {| store := empty_store; heap := []; world := w |}
| reach_upload σ file_id filename contents :
    reachable σ →
    reachable {| store := (upload_data file_id filename contents (store σ) (heap σ)).1.2;
                 heap := (upload_data file_id filename contents (store σ) (heap σ)).2;
                 world := world σ |}
| reach_message σ message :
    reachable σ →
    reachable (send_message message σ).2
| reach_clear_history σ :
    reachable σ → reachable (with_store σ (clear_history (store σ)).1)
| reach_clear_all σ :
    reachable σ → reachable (with_store σ (clear_all (store σ)))
| reach_documents σ dm w :
    reachable σ →
    reachable {| store := with_document_meta (store σ) dm; heap := heap σ; world := w |}.
End Routers.

(** What the stored datasets satisfy in a state the server keeps in order. *)
Record store_ok (st : Store) (h : list DataFrame) : Prop := {
  refs_valid : ∀ id ref, data_frames st !! id = Some ref → ref < length h;
  active_stored : ∀ id, active_dataset_id st = Some id → is_Some (data_frames st !! id);
  meta_for_each : ∀ id, is_Some (data_meta st !! id) ↔ is_Some (data_frames st !! id);
  meta_describes : ∀ id m df,
    data_meta st !! id = Some m → dataset st h id = Some df →
    meta_columns m = columns df ∧ meta_row_count m = df_len df
}.

(** ** What a script may leave alone *)


(** The scripts that [py_exec] runs leave the datasets alone: the
    entries of the store about them stay, and on the heap only the object
    bound to [df] may change. *)
Definition scripts_keep_datasets {W} (C : Collaborators W) : Prop :=
  ∀ code ref deadline σ,
    let σ' := (py_exec C code ref deadline σ).2 in
    data_frames (store σ') = data_frames (store σ)
    ∧ data_meta (store σ') = data_meta (store σ)
    ∧ active_dataset_id (store σ') = active_dataset_id (store σ)
    ∧ ∀ r, r ≠ ref → r < length (heap σ) → heap σ' !! r = heap σ !! r.

(** [σ'] has the dataset entries of [σ], and the objects that were on the
    heap of [σ] as they were. *)
Definition keeps_datasets {W} (σ σ' : State W) : Prop :=
  data_frames (store σ') = data_frames (store σ)
  ∧ data_meta (store σ') = data_meta (store σ)
  ∧ active_dataset_id (store σ') = active_dataset_id (store σ)
  ∧ ∀ r, r < length (heap σ) → heap σ' !! r = heap σ !! r.



(** The keys [_execute_tool] subscripts [args] with, in the order in which
    it does. *)
Definition subscripts (name : string) : list string :=
  if String.eqb name "filter_data" then ["conditions"]
  else if String.eqb name "aggregate_data" then ["group_column"; "value_column"]
  else if String.eqb name "generate_plot" then ["plot_type"; "x_column"]
  else if String.eqb name "search_documents" then ["query"]
  else if String.eqb name "execute_pandas_code" then ["code"]
  else [].


(** A stand-in for [load_file]: the upload carries the table itself, and
    one file name does not parse. *)
Definition read_table (contents : DataFrame) (name : string) : result DataFrame :=
  if String.eqb name "broken.csv"
  then Err (PyException "ParserError" "Error tokenizing data")
  else Ok contents.

(** A stand-in for the constructor of [ChatMessageResponse]. *)
Definition reply_of (t : string) (plot data cols : pyval) : result ResponseData :=
  Ok {| text := t; resp_plot_json := plot; resp_table_data := data;
        resp_table_columns := cols |}.

(** [str.strip] on ASCII text. *)
Definition ascii_strip (s : string) : string :=
  String.string_of_list_ascii (strip ascii_isspace (String.list_ascii_of_string s)).



(** [str.lower] on ASCII letters. *)
Definition ascii_lower (s : list Ascii.ascii) : list Ascii.ascii :=
  map (fun c => let n := Ascii.nat_of_ascii c in
                if (65 <=? n) && (n <=? 90) then Ascii.ascii_of_nat (n + 32) else c) s.

(** A stand-in for a spaCy model: it finds the same three mentions in
    every text. *)
Definition toy_model (text : list Ascii.ascii) : list (entity Ascii.ascii) :=
  [ {| ent_text := chars "BRCA1"; ent_label := chars "GENE" |};
    {| ent_text := chars "brca1"; ent_label := chars "GENE" |};
    {| ent_text := chars "TP53"; ent_label := chars "GENE" |} ].

(** * Properties *)

(** ** Dictionaries and frames *)

Lemma dict_get_set_eq k v d : dict_get k (dict_set k v d) = Some v.
Proof.
  induction d as [|[k' v'] d IH]; simpl.
  - by rewrite String.eqb_refl.
  - destruct (String.eqb k k') eqn:E; simpl; rewrite E; [done | exact IH].
Qed.

Lemma dict_get_set_ne k k' v d :
  k ≠ k' → dict_get k' (dict_set k v d) = dict_get k' d.
Proof.
  intros Hne. induction d as [|[k0 v0] d IH]; simpl.
  - destruct (String.eqb k' k) eqn:E; [|done].
    apply String.eqb_eq in E. congruence.
  - destruct (String.eqb k k0) eqn:E; simpl.
    + apply String.eqb_eq in E. subst k0.
      destruct (String.eqb k' k) eqn:E'; [|done].
      apply String.eqb_eq in E'. congruence.
    + by rewrite IH.
Qed.

Lemma length_to_dict_records df : length (to_dict_records df) = df_len df.
Proof. unfold to_dict_records, df_len. by rewrite length_map. Qed.

Lemma df_len_fillna df : df_len (fillna_empty df) = df_len df.
Proof. unfold df_len, fillna_empty; simpl. by rewrite length_map. Qed.

Lemma to_dict_records_head n df :
  to_dict_records (fillna_empty (head n df)) = take n (to_dict_records (fillna_empty df)).
Proof.
  unfold to_dict_records, fillna_empty, head; simpl.
  induction (rows df) as [|r rs IH] in n |- *; destruct n; simpl; try done.
  by rewrite IH.
Qed.

(** ** The sandbox *)

Lemma on_fault_shape {W} (C : Collaborators W) e :
  on_fault C e empty_output
  = [("result", PNone); ("plot_json", PNone); ("error", PStr (fault_text C e))].
Proof. by destruct e. Qed.

Lemma extract_output {W} (C : Collaborators W) local_vars :
  extract C local_vars empty_output
  = let r := match lookup_var "result" local_vars with
             | Some res => coerce_result res
             | None => PNone
             end in
    match lookup_var "fig" local_vars with
    | None => [("result", r); ("plot_json", PNone); ("error", PNone)]
    | Some fig =>
        match pio_to_json C fig with
        | Ok s => [("result", r); ("plot_json", PStr s); ("error", PNone)]
        | Err x => [("result", PNone); ("plot_json", PNone); ("error", PStr (fault_text C x))]
        end
    end.
Proof.
  unfold extract.
  destruct (lookup_var "fig" local_vars) as [fig|]; simpl.
  - destruct (pio_to_json C fig) as [s|x]; simpl; [|apply on_fault_shape].
    by destruct (lookup_var "result" local_vars).
  - by destruct (lookup_var "result" local_vars).
Qed.

Lemma execute_code_state {W} (C : Collaborators W) code df t σ :
  (execute_code C code df t σ).2 = (script_run C code df t σ).2.
Proof. unfold execute_code. by destruct (script_run C code df t σ). Qed.

(** What [execute_code] gives, by how the run of the script ends. *)
Lemma execute_code_result {W} (C : Collaborators W) code df t σ :
  (execute_code C code df t σ).1
  = match (script_run C code df t σ).1 with
    | Finished local_vars => Returns (extract C local_vars empty_output)
    | Raised e => Returns (on_fault C e empty_output)
    | RaisedBase cls msg => RaisesBase cls msg
    | NeverEnds => Diverges
    end.
Proof. unfold execute_code. by destruct (script_run C code df t σ). Qed.




(** ** The dispatcher *)

Lemma absorb_error rd msg : absorb rd [("error", msg)] = rd.
Proof. reflexivity. Qed.

Lemma requires_dataset_cases name :
  requires_dataset name = true →
  name = "filter_data" ∨ name = "aggregate_data" ∨ name = "describe_data"
  ∨ name = "generate_plot" ∨ name = "execute_pandas_code".
Proof.
  unfold requires_dataset, dataset_tools. simpl. rewrite !orb_true_iff.
  intros [E|[E|[E|[E|[E|E]]]]]; try discriminate; apply String.eqb_eq in E; auto.
Qed.

(** The keys a tool subscripts are among those its schema requires. *)
Lemma subscripts_required name k : k ∈ subscripts name → k ∈ required_of name.
Proof.
  assert (∀ keys : list string, k ∈ keys → ∀ more, k ∈ keys ++ more) as Hmore.
  { intros keys Hk more. apply elem_of_app. by left. }
  unfold subscripts.
  destruct (String.eqb_spec name "filter_data") as [->|_]; [done|].
  destruct (String.eqb_spec name "aggregate_data") as [->|_].
  { intros Hk. apply (Hmore _ Hk ["agg_func"]). }
  destruct (String.eqb_spec name "generate_plot") as [->|_]; [done|].
  destruct (String.eqb_spec name "search_documents") as [->|_]; [done|].
  destruct (String.eqb_spec name "execute_pandas_code") as [->|_]; [done|].
  by intros ?%elem_of_nil.
Qed.

Lemma execute_tool_unknown {W} (C : Collaborators W) name args σ :
  known_tool name = false →
  _execute_tool C name args σ = (Returns [("error", PStr ("Unknown tool: " +:+ name))], σ).
Proof.
  intros Hunknown. unfold known_tool in Hunknown. simpl in Hunknown.
  rewrite !orb_false_iff in Hunknown.
  destruct Hunknown as (E1 & E2 & E3 & E4 & E5 & E6 & _).
  unfold _execute_tool. by rewrite E1, E2, E3, E4, E5, E6.
Qed.

Lemma execute_tool_no_dataset {W} (C : Collaborators W) name args σ :
  requires_dataset name = true → active_of σ = NoDataset →
  _execute_tool C name args σ = (Returns no_dataset, σ).
Proof.
  intros Hreq Hno.
  destruct (requires_dataset_cases _ Hreq) as [->|[->|[->|[->| ->]]]];
    unfold _execute_tool; simpl; by rewrite Hno.
Qed.


(** C7. With no active dataset, [filter_data], [aggregate_data],
    [describe_data], [generate_plot] and [execute_pandas_code] return the
    envelope [{"error": "No dataset loaded."}] and raise nothing; a name that
    is not one of the six tools returns [{"error": "Unknown tool: <name>"}];
    and after such an envelope the tool loop goes on with the remaining
    calls, [response_data] untouched. *)
Theorem soft_errors_keep_the_loop_going {W} (C : Collaborators W) name args σ :
  (active_dataset_id (store σ) = None → requires_dataset name = true →
     _execute_tool C name args σ = (Returns no_dataset, σ))
  ∧ (known_tool name = false →
     _execute_tool C name args σ
     = (Returns [("error", PStr ("Unknown tool: " +:+ name))], σ))
  ∧ (∀ tc rest ls msg,
       fn_name tc = name →
       json_loads C (fn_arguments tc) = Ok args →
       _execute_tool C name args (sys ls) = (Returns [("error", PStr msg)], sys ls) →
       run_tool_calls C (tc :: rest) ls
       = run_tool_calls C rest
           {| resp := resp ls;
              msgs := msgs ls ++ [ToolMsg name (json_text C (PDict [("error", PStr msg)]))
                                          (call_id tc)];
              sys := sys ls |}).
Proof.
  split; [|split].
  - intros Hnone Hreq. apply execute_tool_no_dataset; [done|].
    unfold active_of, lookup_active. by rewrite Hnone.
  - apply execute_tool_unknown.
  - intros tc rest ls msg <- Hargs Hcall. simpl. by rewrite Hargs, Hcall.
Qed.

Lemma soft_errors_keep_the_loop_going_witness :
  let tc := {| call_id := "c1"; fn_name := "generate_plot"; fn_arguments := "{}" |} in
  let σ := {| store := empty_store; heap := []; world := 0 |} in
  let ls := {| resp := blank; msgs := []; sys := σ |} in
  _execute_tool (lab "key" false) "generate_plot" (PDict []) σ = (Returns no_dataset, σ)
  ∧ _execute_tool (lab "key" false) "make_coffee" (PDict []) σ
    = (Returns [("error", PStr "Unknown tool: make_coffee")], σ)
  ∧ run_tool_calls (lab "key" false) [tc] ls
    = (Returns tt,
       {| resp := blank;
          msgs := [ToolMsg "generate_plot" (json_obj [("error", "No dataset loaded.")]) "c1"];
          sys := σ |}).
Proof.
  intros tc σ ls. split; [|split].
  - apply (soft_errors_keep_the_loop_going (lab "key" false) "generate_plot" (PDict []) σ);
      reflexivity.
  - apply (soft_errors_keep_the_loop_going (lab "key" false) "make_coffee" (PDict []) σ);
      reflexivity.
  - exact (proj2 (proj2 (soft_errors_keep_the_loop_going (lab "key" false)
                          "generate_plot" (PDict []) σ))
                 tc [] ls "No dataset loaded." eq_refl eq_refl eq_refl).
Defined.




(** ** Clearing *)

(** C3, as the claim states it, fails: [POST /clear] leaves the active
    dataset in place, and [describe_data] still answers for it. *)
Lemma clear_history_keeps_the_dataset :
  let st := (clear_history (store_of 0 greeting)).1 in
  conversation_history st = []
  ∧ active_dataset_id st = Some "a1b2c3"
  ∧ (_execute_tool (lab "key" false) "describe_data" (PDict [])
       {| store := st; heap := [genes]; world := 0 |}).1
    = Returns [("rows", PInt 3)].
Proof. repeat split. Qed.

(** C3, amended. [clear_history] ([POST /clear]) empties the history, so that
    [get_history] lists nothing, and leaves the datasets, their metadata, the
    document metadata and the active reference as they were.
    [store.clear_all] empties the history and sets the active reference to
    [None], after which each of the five dataset tools returns
    [{"error": "No dataset loaded."}]. *)
Theorem clearing st :
  (let st' := (clear_history st).1 in
   conversation_history st' = [] ∧ get_history st' = []
   ∧ active_dataset_id st' = active_dataset_id st
   ∧ data_frames st' = data_frames st
   ∧ data_meta st' = data_meta st
   ∧ document_meta st' = document_meta st)
  ∧ (let st' := clear_all st in
     conversation_history st' = [] ∧ get_history st' = []
     ∧ active_dataset_id st' = None
     ∧ ∀ W (C : Collaborators W) h w args,
         let σ := {| store := st'; heap := h; world := w |} in
         Forall (fun name => _execute_tool C name args σ = (Returns no_dataset, σ))
                dataset_tools).
Proof.
  split; [done|]. repeat split.
  intros W C h w args σ. repeat constructor.
Qed.

(** ** Table previews *)

Lemma filter_envelope_preview res :
  dict_get "data" (filter_envelope res)
  = Some (PList (take 50 (to_dict_records (fillna_empty res))))
  ∧ preview_length (filter_envelope res) = Some (min 50 (df_len res))
  ∧ dict_get "row_count" (filter_envelope res) = Some (PInt (Z.of_nat (df_len res))).
Proof.
  unfold preview_length, filter_envelope; cbn [dict_get String.eqb Ascii.eqb Bool.eqb andb].
  rewrite to_dict_records_head, length_take, length_to_dict_records, df_len_fillna. done.
Qed.

Lemma aggregate_envelope_preview res :
  dict_get "data" (aggregate_envelope res)
  = Some (PList (to_dict_records (fillna_empty res)))
  ∧ preview_length (aggregate_envelope res) = Some (df_len res)
  ∧ dict_get "row_count" (aggregate_envelope res) = Some (PInt (Z.of_nat (df_len res))).
Proof.
  unfold preview_length, aggregate_envelope; cbn [dict_get String.eqb Ascii.eqb Bool.eqb andb].
  rewrite length_to_dict_records, df_len_fillna. done.
Qed.

Lemma sandbox_table_preview res :
  ∃ tbl, sandbox_table res = PDict tbl
    ∧ dict_get "data" tbl = Some (PList (take 100 (to_dict_records (fillna_empty res))))
    ∧ preview_length tbl = Some (min 100 (df_len res))
    ∧ dict_get "row_count" tbl = Some (PInt (Z.of_nat (df_len res))).
Proof.
  eexists. split; [reflexivity|]. unfold preview_length; cbn [dict_get String.eqb Ascii.eqb Bool.eqb andb].
  rewrite to_dict_records_head, length_take, length_to_dict_records, df_len_fillna. done.
Qed.

(** C4, as the claim states it, fails: [aggregate_data] over 51 groups
    returns an envelope that previews all 51 rows. *)
Lemma aggregate_preview_exceeds_fifty :
  match (_execute_tool (lab "key" false) "aggregate_data"
           (PDict [("group_column", PStr "gene"); ("value_column", PStr "expression");
                   ("agg_func", PStr "count")])
           (bench wide [])).1 with
  | Returns d => preview_length d = Some 51 ∧ dict_get "row_count" d = Some (PInt 51)
  | _ => False
  end.
Proof. vm_compute. split; reflexivity. Qed.

(** C4, amended. An envelope that [_execute_tool] returns for [filter_data]
    previews the first 50 rows of the filtered table, and a DataFrame
    [result] of a sandboxed script is previewed by its first 100 rows; the
    envelope of [aggregate_data] carries every row of the aggregated table.
    In all three, [row_count] is the number of rows of the whole table. *)
Theorem table_previews {W} (C : Collaborators W) args σ d :
  ((_execute_tool C "filter_data" args σ).1 = Returns d →
     d = no_dataset
     ∨ ∃ df c res, active_of σ = Active df ∧ filter_data C df c = Ok res
         ∧ dict_get "data" d = Some (PList (take 50 (to_dict_records (fillna_empty res))))
         ∧ preview_length d = Some (min 50 (df_len res))
         ∧ dict_get "row_count" d = Some (PInt (Z.of_nat (df_len res))))
  ∧ ((_execute_tool C "aggregate_data" args σ).1 = Returns d →
     d = no_dataset
     ∨ ∃ df g v f res, active_of σ = Active df ∧ aggregate_data C df g v f = Ok res
         ∧ dict_get "data" d = Some (PList (to_dict_records (fillna_empty res)))
         ∧ preview_length d = Some (df_len res)
         ∧ dict_get "row_count" d = Some (PInt (Z.of_nat (df_len res))))
  ∧ (∀ code df t local_vars res,
       (script_run C code df t σ).1 = Finished local_vars →
       lookup_var "result" local_vars = Some (OFrame res) →
       (execute_code C code df t σ).1 = Returns d →
       (∃ x, dict_get "error" d = Some (PStr x))
       ∨ ∃ tbl, dict_get "result" d = Some (PDict tbl)
           ∧ dict_get "data" tbl
             = Some (PList (take 100 (to_dict_records (fillna_empty res))))
           ∧ preview_length tbl = Some (min 100 (df_len res))
           ∧ dict_get "row_count" tbl = Some (PInt (Z.of_nat (df_len res)))).
Proof.
  split; [|split].
  - unfold _execute_tool; simpl.
    destruct (active_of σ) as [|id|df] eqn:L; simpl; [intros [= <-]; by left|done|].
    destruct (getitem args "conditions") as [c|e]; simpl; [|done].
    destruct (filter_data C df c) as [res|e] eqn:F; simpl; [|done].
    intros [= <-]. right. exists df, c, res. repeat split; try done; apply filter_envelope_preview.
  - unfold _execute_tool; simpl.
    destruct (active_of σ) as [|id|df] eqn:L; simpl; [intros [= <-]; by left|done|].
    destruct (getitem args "group_column") as [g|e]; simpl; [|done].
    destruct (getitem args "value_column") as [v|e]; simpl; [|done].
    destruct (get_default args "agg_func" _) as [f|e]; simpl; [|done].
    destruct (aggregate_data C df g v f) as [res|e] eqn:F; simpl; [|done].
    intros [= <-]. right. exists df, g, v, f, res.
    repeat split; try done; apply aggregate_envelope_preview.
  - intros code df t local_vars res P R. rewrite execute_code_result, P, extract_output, R.
    destruct (lookup_var "fig" local_vars) as [fig|]; simpl.
    + destruct (pio_to_json C fig) as [s|x]; simpl; intros [= <-].
      * right. destruct (sandbox_table_preview res) as (tbl & -> & ?). by exists tbl.
      * left. simpl. eauto.
    + intros [= <-]. right. destruct (sandbox_table_preview res) as (tbl & -> & ?).
      by exists tbl.
Qed.

Lemma table_previews_witness :
  let C := lab "key" true in
  let grouped := (_execute_tool C "aggregate_data"
                    (PDict [("group_column", PStr "gene");
                            ("value_column", PStr "expression")]) (bench genes [])).1 in
  let ran := (execute_code C (PStr "result = df") tall 10 (bench tall [])).1 in
  (preview_length (filter_envelope wide) = Some 50
   ∧ dict_get "row_count" (filter_envelope wide) = Some (PInt 51))
  ∧ (∃ d n, grouped = Returns d ∧ preview_length d = Some n
            ∧ dict_get "row_count" d = Some (PInt (Z.of_nat n)))
  ∧ (∃ d tbl, ran = Returns d ∧ dict_get "result" d = Some (PDict tbl)
              ∧ preview_length tbl = Some 100
              ∧ dict_get "row_count" tbl = Some (PInt 101)).
Proof.
  intros C grouped ran. split; [|split].
  - destruct (table_previews C (PDict [("conditions", PStr "expression > 0")])
                (bench wide []) (filter_envelope wide))
      as [Hfilter _].
    destruct (Hfilter eq_refl) as [Hno | (df & c & res & Hact & Hres & _ & Hlen & Hcount)].
    + discriminate Hno.
    + injection Hres as <-. injection Hact as <-. split; [exact Hlen | exact Hcount].
  - destruct grouped as [d| | |] eqn:G; try discriminate G.
    destruct (table_previews C
                (PDict [("group_column", PStr "gene"); ("value_column", PStr "expression")])
                (bench genes []) d)
      as (_ & Haggregate & _).
    destruct (Haggregate G) as [Hno | (df & g & v & f & res & _ & _ & _ & Hlen & Hcount)].
    + subst d. discriminate G.
    + exists d, (df_len res). by repeat split.
  - destruct ran as [d| | |] eqn:R; try discriminate R.
    destruct (table_previews C PNone (bench tall []) d) as (_ & _ & Hsandbox).
    destruct (Hsandbox (PStr "result = df") tall 10 [("result", OFrame tall)] tall
                eq_refl eq_refl R) as [[x Hx] | (tbl & Hresult & _ & Hlen & Hcount)].
    + injection R as <-. discriminate Hx.
    + exists d, tbl. by repeat split.
Defined.

(** ** The tool loop *)

Lemma absorb_text rd d : text (absorb rd d) = text rd.
Proof.
  unfold absorb.
  repeat (case_match; simpl); done.
Qed.

Lemma absorb_plot rd d :
  resp_plot_json (absorb rd d) = default (resp_plot_json rd) (chart_of d).
Proof.
  unfold absorb, chart_of.
  repeat (case_match; simpl); done.
Qed.

Lemma absorb_table rd d :
  (resp_table_data (absorb rd d), resp_table_columns (absorb rd d))
  = default (resp_table_data rd, resp_table_columns rd) (table_of d).
Proof.
  unfold absorb, table_of.
  repeat (case_match; simpl); done.
Qed.

(** Folding a list of envelopes keeps what the last yielding one gave. *)
Lemma foldl_absorb_last {A} (f : dict → option A) (get : ResponseData → A) :
  (∀ rd d, get (absorb rd d) = default (get rd) (f d)) →
  ∀ after rd before d a,
    f d = Some a → Forall (fun d' => f d' = None) after →
    get (foldl absorb rd (before ++ d :: after)) = a.
Proof.
  intros Hstep after.
  induction after as [|d' after IH] using rev_ind; intros rd before d a Hd Hafter.
  - rewrite foldl_app. simpl. by rewrite Hstep, Hd.
  - apply Forall_app in Hafter as [Hafter Hd'].
    rewrite Forall_singleton in Hd'.
    rewrite app_comm_cons, app_assoc, foldl_app. simpl.
    rewrite Hstep, Hd'. simpl. by apply IH.
Qed.

Lemma foldl_absorb_none {A} (f : dict → option A) (get : ResponseData → A) :
  (∀ rd d, get (absorb rd d) = default (get rd) (f d)) →
  ∀ ds rd, Forall (fun d => f d = None) ds → get (foldl absorb rd ds) = get rd.
Proof.
  intros Hstep ds. induction ds as [|d ds IH]; intros rd Hds; simpl; [done|].
  apply Forall_cons in Hds as [Hd Hds]. simpl in Hd.
  rewrite IH by done. by rewrite Hstep, Hd.
Qed.

Lemma run_tool_calls_resp {W} (C : Collaborators W) calls ls :
  resp (run_tool_calls C calls ls).2
  = foldl absorb (resp ls) (tool_results C calls (sys ls)).
Proof.
  induction calls as [|tc rest IH] in ls |- *; simpl; [done|].
  destruct (json_loads C (fn_arguments tc)) as [fn_args|e]; simpl; [|done].
  destruct (_execute_tool C (fn_name tc) fn_args (sys ls)) as [done σ'].
  destruct done as [tool_result|e|cls msg|]; simpl; [|done|done|done].
  destruct (json_dumps C (PDict tool_result)); simpl; [apply IH|done].
Qed.

(** [response_data] at the end of [chat]'s [try] block, text apart. *)
Lemma chat_try_resp {W} (C : Collaborators W) messages rd0 σ am :
  complete C messages true = Ok am →
  ∃ t, (chat_try C messages rd0 σ).1.2
       = set_text (foldl absorb rd0 (tool_results C (tool_calls am) σ)) t.
Proof.
  intros Ham. unfold chat_try. rewrite Ham.
  destruct (tool_calls am) as [|tc rest] eqn:Hcalls.
  { simpl. eauto. }
  pose proof (run_tool_calls_resp C (tc :: rest)
                {| resp := rd0; msgs := messages ++ [AssistantMsg am]; sys := σ |}) as Hresp.
  destruct (run_tool_calls C (tc :: rest) _) as [looped ls].
  simpl in Hresp.
  assert (∀ rd : ResponseData, rd = set_text rd (text rd)) as Hid by (by intros []).
  destruct looped as [[]|e|cls msg|]; simpl.
  - destruct (complete C (msgs ls) false) as [reply|e]; simpl.
    + rewrite Hresp. eauto.
    + rewrite Hresp. eauto.
  - rewrite Hresp. eauto.
  - rewrite Hresp. eauto.
  - rewrite Hresp. eauto.
Qed.

Lemma chat_response {W} (C : Collaborators W) msg σ am rd :
  complete C (build_messages C (store σ) (heap σ) msg) true = Ok am →
  (chat C msg σ).1 = Returns rd →
  ∃ t, rd = set_text
              (foldl absorb blank
                 (tool_results C (tool_calls am) (record_turn σ (user_turn msg)))) t.
Proof.
  intros Ham. unfold chat, _get_client.
  destruct (String.eqb (_api_key C) ""); [done|].
  destruct (chat_try_resp C _ blank (record_turn σ (user_turn msg)) am Ham) as [t Ht].
  unfold chat_finish.
  destruct (chat_try C _ blank _) as [[ended rd1] σ']. simpl in Ht. subst rd1.
  destruct ended as [[]|e|cls m|]; simpl; [| |done|done]; intros [= <-]; eauto.
Qed.

(** C5. In one call of [chat] whose first model reply carries tool calls,
    let [ds] be the envelopes these calls return, in the model's order. The
    chart of the response is the chart of the last envelope of [ds] that
    yields one, whatever charts earlier envelopes yielded; the rows and
    column names of the response are those of the last envelope that yields
    a table; nothing is merged. With no chart (table) among [ds] the
    response has none. *)
Theorem last_write_wins {W} (C : Collaborators W) msg σ am rd :
  complete C (build_messages C (store σ) (heap σ) msg) true = Ok am →
  (chat C msg σ).1 = Returns rd →
  let ds := tool_results C (tool_calls am) (record_turn σ (user_turn msg)) in
  (∀ before d after p,
     ds = before ++ d :: after → chart_of d = Some p →
     Forall (fun d' => chart_of d' = None) after →
     resp_plot_json rd = p)
  ∧ (∀ before d after data cols,
       ds = before ++ d :: after → table_of d = Some (data, cols) →
       Forall (fun d' => table_of d' = None) after →
       resp_table_data rd = data ∧ resp_table_columns rd = cols)
  ∧ (Forall (fun d => chart_of d = None) ds → resp_plot_json rd = PNone)
  ∧ (Forall (fun d => table_of d = None) ds →
     resp_table_data rd = PNone ∧ resp_table_columns rd = PNone).
Proof.
  intros Ham Hrd ds.
  destruct (chat_response C msg σ am rd Ham Hrd) as [t ->]. fold ds. simpl.
  split; [|split; [|split]].
  - intros before d after p -> Hd Hafter.
    by apply (foldl_absorb_last chart_of resp_plot_json absorb_plot).
  - intros before d after data cols -> Hd Hafter.
    pose proof (foldl_absorb_last table_of
                  (fun rd => (resp_table_data rd, resp_table_columns rd)) absorb_table
                  after blank before d (data, cols) Hd Hafter) as [= -> ->].
    done.
  - intros Hds.
    by rewrite (foldl_absorb_none chart_of resp_plot_json absorb_plot).
  - intros Hds.
    pose proof (foldl_absorb_none table_of
                  (fun rd => (resp_table_data rd, resp_table_columns rd)) absorb_table
                  ds blank Hds) as [= -> ->].
    done.
Qed.

Lemma last_write_wins_witness :
  let C := lab "key" true in
  let σ := bench genes greeting in
  ∃ rd d1 d2,
    (chat C "two charts" σ).1 = Returns rd
    ∧ tool_results C
        [ {| call_id := "c1"; fn_name := "generate_plot"; fn_arguments := plot_args "bar" |};
          {| call_id := "c2"; fn_name := "generate_plot"; fn_arguments := plot_args "pie" |} ]
        (record_turn σ (user_turn "two charts")) = [d1; d2]
    ∧ chart_of d1 = Some (PStr "figure:bar")
    ∧ chart_of d2 = Some (PStr "figure:pie")
    ∧ resp_plot_json rd = PStr "figure:pie"
    ∧ resp_table_data rd = PNone.
Proof.
  intros C σ.
  destruct (chat C "two charts" σ) as [[rd| | |] σ'] eqn:Hchat;
    try (vm_compute in Hchat; discriminate Hchat).
  exists rd. do 2 eexists.
  split; [reflexivity|]. split; [vm_compute; reflexivity|].
  split; [reflexivity|]. split; [reflexivity|].
  pose proof (last_write_wins C "two charts" σ _ rd eq_refl
                (f_equal (fun r => r.1) Hchat)) as (Hchart & _ & _ & Htable).
  split.
  - apply (Hchart [[("plot_json", PStr "figure:bar"); ("plot_type", PStr "bar")]]
                  [("plot_json", PStr "figure:pie"); ("plot_type", PStr "pie")] []);
      [vm_compute; reflexivity | reflexivity | constructor].
  - apply Htable. vm_compute. repeat constructor.
Defined.

(** ** What a dispatch leaves *)

Lemma execute_tool_keeps_state {W} (C : Collaborators W) name args σ :
  name ≠ "execute_pandas_code" → (_execute_tool C name args σ).2 = σ.
Proof.
  intros Hname. unfold _execute_tool.
  repeat (case_match; simpl; try done).
  match goal with H : String.eqb _ "execute_pandas_code" = true |- _ =>
    apply String.eqb_eq in H end. done.
Qed.

(** A dispatch leaves the state as it was, or as the script it ran left it. *)
Lemma execute_tool_state {W} (C : Collaborators W) name args σ :
  (_execute_tool C name args σ).2 = σ
  ∨ ∃ code df, name = "execute_pandas_code" ∧ getitem args "code" = Ok code
               ∧ active_of σ = Active df
               ∧ (_execute_tool C name args σ) = execute_code C code df 10 σ.
Proof.
  destruct (decide (name = "execute_pandas_code")) as [->|Hname].
  2: { left. by apply execute_tool_keeps_state. }
  unfold _execute_tool; simpl.
  destruct (active_of σ) as [|id|df] eqn:L; simpl; [by left|by left|].
  destruct (getitem args "code") as [code|e] eqn:A; simpl; [|by left].
  right. by exists code, df.
Qed.







(** ** Turns *)

Lemma chat_with_key {W} (C : Collaborators W) msg σ :
  String.eqb (_api_key C) "" = false →
  chat C msg σ
  = chat_finish
      (chat_try C (build_messages C (store σ) (heap σ) msg) blank
         (record_turn σ (user_turn msg))).
Proof. intros Hkey. unfold chat, _get_client. by rewrite Hkey. Qed.

Lemma chat_first_call_fails {W} (C : Collaborators W) msg σ e :
  String.eqb (_api_key C) "" = false →
  complete C (build_messages C (store σ) (heap σ) msg) true = Err e →
  chat C msg σ
  = let rd := set_text blank ("I encountered an error: " +:+ exn_str e) in
    (Returns rd, record_turn (record_turn σ (user_turn msg)) (assistant_turn rd)).
Proof.
  intros Hkey He. rewrite chat_with_key by done. unfold chat_try. by rewrite He.
Qed.

Lemma chat_plain_reply {W} (C : Collaborators W) msg σ am :
  String.eqb (_api_key C) "" = false →
  complete C (build_messages C (store σ) (heap σ) msg) true = Ok am →
  tool_calls am = [] →
  chat C msg σ
  = let rd := set_text blank (default "" (msg_content am)) in
    (Returns rd, record_turn (record_turn σ (user_turn msg)) (assistant_turn rd)).
Proof.
  intros Hkey Ham Hcalls. rewrite chat_with_key by done. unfold chat_try.
  by rewrite Ham, Hcalls.
Qed.









(** ** What a dispatch reads *)





(** ** The prompt and the history *)

Lemma last_turns_suffix n (hist : list Turn) :
  hist = take (length hist - n) hist ++ last_turns n hist.
Proof. unfold last_turns. by rewrite take_drop. Qed.

Lemma length_last_turns n (hist : list Turn) :
  length (last_turns n hist) = min n (length hist).
Proof. unfold last_turns. rewrite length_drop. lia. Qed.

Lemma last_turns_app n (older recent : list Turn) :
  length recent = n → last_turns n (older ++ recent) = recent.
Proof.
  intros <-. unfold last_turns. rewrite length_app.
  replace (length older + length recent - length recent) with (length older) by lia.
  by rewrite drop_app_length.
Qed.

(** The messages of a tool loop that comes to its end: one more for each
    call. *)
Lemma run_tool_calls_msgs {W} (C : Collaborators W) calls ls ls' :
  run_tool_calls C calls ls = (Returns tt, ls') →
  ∃ tool_msgs, msgs ls' = msgs ls ++ tool_msgs ∧ length tool_msgs = length calls.
Proof.
  induction calls as [|tc rest IH] in ls |- *; simpl.
  - intros [= <-]. exists []. by rewrite app_nil_r.
  - destruct (json_loads C (fn_arguments tc)) as [fn_args|e]; [|done].
    destruct (_execute_tool C (fn_name tc) fn_args (sys ls)) as [done σ'].
    destruct done as [tool_result|e|cls msg|]; [|done|done|done].
    destruct (json_dumps C (PDict tool_result)) as [s|e]; [|done].
    intros Hrun. destruct (IH _ Hrun) as (tool_msgs & -> & Hlen). simpl.
    eexists (_ :: tool_msgs). rewrite <- app_assoc. split; [done|]. simpl. by rewrite Hlen.
Qed.

(** C9. The model is sent the system prompt, then the last 20 turns of the
    history (all of it when it has fewer) by role and content, then the new
    user message, and [chat] answers by what the model replies to these
    messages: through a failure of the call, through a reply without tool
    calls, or through the tool loop, whose second model call gets the same
    messages followed by the assistant message and one tool message for each
    call. Whatever turns come before the last 20 make no difference to the
    messages. The store keeps the whole history: the turns are appended to
    all of it, and [get_history] lists every turn, in order. *)
Theorem prompt_reads_last_twenty {W} (C : Collaborators W) msg σ :
  let hist := conversation_history (store σ) in
  let recent := drop (length hist - 20) hist in
  let prompt := Msg "system" (_build_system_prompt C (store σ) (heap σ))
                  :: map (fun t => Msg (role t) (content t)) recent ++ [Msg "user" msg] in
  let σ1 := with_store σ (with_history (store σ) (hist ++ [user_turn msg])) in
  let after (turns : list Turn) (σ' : State W) :=
    with_store σ' (with_history (store σ') (conversation_history (store σ') ++ turns)) in
  String.eqb (_api_key C) "" = false →
  (length recent = min 20 (length hist) ∧ ∃ older, hist = older ++ recent)
  ∧ (∀ e, complete C prompt true = Err e →
       let rd := set_text blank ("I encountered an error: " +:+ exn_str e) in
       chat C msg σ = (Returns rd, after [assistant_turn rd] σ1))
  ∧ (∀ am, complete C prompt true = Ok am → tool_calls am = [] →
       let rd := set_text blank (default "" (msg_content am)) in
       chat C msg σ = (Returns rd, after [assistant_turn rd] σ1))
  ∧ (∀ am ls, complete C prompt true = Ok am → tool_calls am ≠ [] →
       run_tool_calls C (tool_calls am)
         {| resp := blank; msgs := prompt ++ [AssistantMsg am]; sys := σ1 |}
       = (Returns tt, ls) →
       (∃ tool_msgs, msgs ls = prompt ++ AssistantMsg am :: tool_msgs
                     ∧ length tool_msgs = length (tool_calls am))
       ∧ chat C msg σ
         = match complete C (msgs ls) false with
           | Ok reply =>
               let rd := set_text (resp ls) (default "" (msg_content reply)) in
               (Returns rd, after [assistant_turn rd] (sys ls))
           | Err e =>
               let rd := set_text (resp ls) ("I encountered an error: " +:+ exn_str e) in
               (Returns rd, after [assistant_turn rd] (sys ls))
           end)
  ∧ (20 ≤ length hist →
     ∀ older', build_messages C (with_history (store σ) (older' ++ recent)) (heap σ) msg
               = prompt)
  ∧ map (fun i => (item_role i, item_content i)) (get_history (store σ))
    = map (fun t => (role t, content t)) hist
  ∧ map (fun i => (item_plot_json i, item_table_data i, item_table_columns i))
        (get_history (store σ))
    = map (fun t => (plot_json t, table_data t, table_columns t)) hist.
Proof.
  intros hist recent prompt σ1 after Hkey.
  assert (build_messages C (store σ) (heap σ) msg = prompt) as Hprompt by done.
  split.
  { split; [subst recent; rewrite length_drop; lia|].
    exists (take (length hist - 20) hist). subst recent. by rewrite take_drop. }
  split.
  { intros e He. rewrite <- Hprompt in He. by rewrite (chat_first_call_fails C msg σ e Hkey He). }
  split.
  { intros am Ham Hcalls. rewrite <- Hprompt in Ham.
    by rewrite (chat_plain_reply C msg σ am Hkey Ham Hcalls). }
  split.
  { intros am ls Ham Hcalls Hrun. split.
    - destruct (run_tool_calls_msgs C _ _ _ Hrun) as (tool_msgs & Hmsgs & Hlen).
      exists tool_msgs. split; [|done]. rewrite Hmsgs. simpl. by rewrite <- app_assoc.
    - rewrite chat_with_key by done. rewrite Hprompt.
      change (record_turn σ (user_turn msg)) with σ1.
      unfold chat_try. rewrite Ham.
      destruct (tool_calls am) as [|tc rest] eqn:E; [done|].
      rewrite Hrun.
      by destruct (complete C (msgs ls) false) as [reply|e]. }
  split.
  { intros Hlong older'. unfold build_messages. simpl conversation_history.
    rewrite last_turns_app; [done|]. subst recent. rewrite length_drop. lia. }
  split; unfold get_history; by rewrite map_map.
Qed.

Lemma prompt_reads_last_twenty_witness :
  let C := lab "key" true in
  let old := user_turn "first" :: replicate 20 (user_turn "again") in
  let σ := bench genes old in
  chat C "hi" σ
  = (Returns (set_text blank "Hello."),
     bench genes (old ++ [user_turn "hi"; assistant_turn (set_text blank "Hello.")]))
  ∧ length (build_messages C (store σ) (heap σ) "hi") = 22
  ∧ build_messages C (with_history (store σ) (replicate 20 (user_turn "again"))) (heap σ) "hi"
    = build_messages C (store σ) (heap σ) "hi"
  ∧ length (get_history (store σ)) = 21.
Proof.
  intros C old σ.
  destruct (prompt_reads_last_twenty C "hi" σ eq_refl)
    as (_ & _ & Hplain & _ & Holder & _).
  split; [|split; [reflexivity|split; [|reflexivity]]].
  - exact (Hplain {| msg_content := Some "Hello."; tool_calls := [] |} eq_refl eq_refl).
  - exact (Holder ltac:(vm_compute; lia) []).
Defined.

(** ** The sandbox and the store *)

(** C10. The claim fails on the code, and the code is at fault: the
    namespace of [execute_code] is meant to confine the script (its
    builtins are cut down to a few, its [df] is a copy), but it holds the
    module [pd], and [pd.core.common.builtins] is the whole of the builtins.
    In general the state after the tool is the state the script left; and
    the script below, run by [execute_pandas_code] on an active dataset,
    leaves [data_frames] empty, after which [describe_data] raises
    [KeyError] for the active id. *)
Theorem sandbox_escape_changes_the_store :
  (∀ W (C : Collaborators W) args σ df code,
     active_of σ = Active df → getitem args "code" = Ok code →
     (_execute_tool C "execute_pandas_code" args σ).2
     = (py_exec C code (length (heap σ)) (if sigalrm C then Some 10 else None)
          (with_heap σ (heap σ ++ [df]))).2)
  ∧ (let C := open_lab "key" true in
     let σ := bench genes greeting in
     let r := _execute_tool C "execute_pandas_code"
                (PDict [("code", PStr forget_datasets_script)]) σ in
     dataset (store σ) (heap σ) "a1b2c3" = Some genes
     ∧ r.1 = Returns [("result", PNone); ("plot_json", PNone); ("error", PNone)]
     ∧ data_frames (store r.2) = ∅
     ∧ dataset (store r.2) (heap r.2) "a1b2c3" = None
     ∧ (_execute_tool C "describe_data" (PDict []) r.2).1 = Raises (KeyError "a1b2c3")).
Proof.
  split.
  - intros W C args σ df code Hdf Hcode. unfold _execute_tool; simpl.
    rewrite Hdf, Hcode. apply execute_code_state.
  - repeat split.
Qed.

Lemma sandbox_escape_changes_the_store_witness :
  let C := open_lab "key" true in
  let σ := bench genes greeting in
  store (_execute_tool C "execute_pandas_code"
           (PDict [("code", PStr forget_history_script)]) σ).2
  = store_of 0 [].
Proof.
  intros C σ.
  rewrite (proj1 sandbox_escape_changes_the_store nat C
             (PDict [("code", PStr forget_history_script)]) σ genes
             (PStr forget_history_script) eq_refl eq_refl).
  reflexivity.
Defined.

(** ** Slices and stripping *)

Lemma py_slice_infix {A} (l : list A) start stop :
  ∃ before after, l = before ++ py_slice l start stop ++ after.
Proof.
  unfold py_slice.
  set (lo := Z.to_nat (slice_bound _ start)). set (k := Z.to_nat _).
  exists (take lo l), (drop k (drop lo l)).
  by rewrite (take_drop k), (take_drop lo).
Qed.

Lemma length_py_slice {A} (l : list A) start size :
  (0 ≤ size)%Z → (Z.of_nat (length (py_slice l start (start + size))) ≤ size)%Z.
Proof.
  intros Hsize. unfold py_slice, slice_bound.
  rewrite length_take, length_drop.
  destruct (Z.ltb_spec start 0); destruct (Z.ltb_spec (start + size) 0); lia.
Qed.

(** A window that starts inside the text. *)
Lemma py_slice_window {A} (l : list A) (start size : nat) :
  start ≤ length l →
  py_slice l (Z.of_nat start) (Z.of_nat start + Z.of_nat size) = take size (drop start l).
Proof.
  intros Hstart. unfold py_slice, slice_bound.
  destruct (Z.ltb_spec (Z.of_nat start) 0); [lia|].
  destruct (Z.ltb_spec (Z.of_nat start + Z.of_nat size) 0); [lia|].
  rewrite (Z.min_l (Z.of_nat start)) by lia. rewrite Nat2Z.id.
  destruct (decide (start + size ≤ length l)).
  - f_equal. lia.
  - rewrite !take_ge; [done|rewrite length_drop; lia..].
Qed.

Section Strip.
Context {char : Type} (isspace : char → bool).

Lemma lstrip_suffix s : ∃ spaces, s = spaces ++ lstrip isspace s.
Proof.
  induction s as [|c s [spaces IH]]; simpl; [by exists []|].
  destruct (isspace c); [|by exists []].
  exists (c :: spaces). simpl. by f_equal.
Qed.

Lemma lstrip_head s x : hd_error (lstrip isspace s) = Some x → isspace x = false.
Proof.
  induction s as [|c s IH]; simpl; [done|].
  destruct (isspace c) eqn:E; [done|]. simpl. by intros [= <-].
Qed.

Lemma lstrip_keeps s x : x ∈ s → isspace x = false → x ∈ lstrip isspace s.
Proof.
  intros Hx Hns. induction s as [|c s IH]; simpl; [done|].
  destruct (isspace c) eqn:E; [|done].
  apply elem_of_cons in Hx as [->|Hx]; [congruence|auto].
Qed.

Lemma lstrip_id s : Forall (fun x => isspace x = false) s → lstrip isspace s = s.
Proof. destruct 1 as [|c s Hc Hs]; simpl; [done|]. by rewrite Hc. Qed.

Lemma lstrip_spaces s : Forall (fun x => isspace x = true) s → lstrip isspace s = [].
Proof. induction 1 as [|c s Hc Hs IH]; simpl; [done|]. by rewrite Hc. Qed.

Lemma lstrip_last s x : last (lstrip isspace s) = Some x → last s = Some x.
Proof.
  destruct (lstrip_suffix s) as [spaces Hs]. intros Hlast.
  rewrite Hs. destruct (lstrip isspace s) as [|c s'] eqn:E; [done|].
  by rewrite last_app, Hlast.
Qed.

Lemma strip_infix s : ∃ before after, s = before ++ strip isspace s ++ after.
Proof.
  unfold strip, rstrip.
  destruct (lstrip_suffix s) as [before Hs].
  destruct (lstrip_suffix (reverse (lstrip isspace s))) as [after Hr].
  exists before, (reverse after).
  rewrite <- reverse_app, <- Hr, reverse_involutive. exact Hs.
Qed.

Lemma strip_head s x : hd_error (strip isspace s) = Some x → isspace x = false.
Proof.
  unfold strip, rstrip. rewrite head_reverse. intros Hlast.
  apply lstrip_last in Hlast. rewrite last_reverse in Hlast.
  by apply lstrip_head in Hlast.
Qed.

Lemma strip_last s x : last (strip isspace s) = Some x → isspace x = false.
Proof. unfold strip, rstrip. rewrite last_reverse. apply lstrip_head. Qed.

Lemma strip_keeps s x : x ∈ s → isspace x = false → x ∈ strip isspace s.
Proof.
  intros Hx Hns. unfold strip, rstrip.
  apply elem_of_reverse, lstrip_keeps; [|done].
  apply elem_of_reverse. by apply lstrip_keeps.
Qed.

Lemma strip_id s : Forall (fun x => isspace x = false) s → strip isspace s = s.
Proof.
  intros Hs. unfold strip, rstrip. rewrite (lstrip_id s Hs).
  rewrite lstrip_id; [apply reverse_involutive|].
  apply Forall_forall. intros x Hx. rewrite elem_of_reverse in Hx.
  rewrite Forall_forall in Hs. by apply Hs.
Qed.

Lemma strip_spaces s : Forall (fun x => isspace x = true) s → strip isspace s = [].
Proof. intros Hs. unfold strip, rstrip. by rewrite (lstrip_spaces s Hs). Qed.

Lemma length_strip s : length (strip isspace s) ≤ length s.
Proof.
  destruct (strip_infix s) as (before & after & Hs).
  rewrite Hs at 2. rewrite !length_app. lia.
Qed.
End Strip.

(** ** Chunking a text *)

Section Chunks.
Context {char : Type} (isspace : char → bool).
Implicit Types (text : list char) (chunks : list (list char)).

Lemma chunk_loop_acc fuel text size overlap start chunks r :
  chunk_loop isspace fuel text size overlap start chunks = Some r →
  ∃ new, r = chunks ++ new.
Proof.
  induction fuel as [|fuel IH] in start, chunks |- *; simpl; [done|].
  case_match.
  - intros [new ->]%IH. rewrite <- app_assoc. eauto.
  - intros [= <-]. exists []. by rewrite app_nil_r.
Qed.

Lemma chunk_loop_mono fuel fuel' text size overlap start chunks r :
  chunk_loop isspace fuel text size overlap start chunks = Some r →
  fuel ≤ fuel' →
  chunk_loop isspace fuel' text size overlap start chunks = Some r.
Proof.
  induction fuel as [|fuel IH] in fuel', start, chunks |- *; simpl; [done|].
  intros Hr Hle. destruct fuel' as [|fuel']; [lia|]. simpl.
  case_match; [|done]. apply IH; [done|lia].
Qed.

Lemma chunk_loop_Forall (P : list char → Prop) fuel text size overlap start chunks r :
  (∀ s, P (strip isspace (py_slice text s (s + size)))) →
  Forall P chunks →
  chunk_loop isspace fuel text size overlap start chunks = Some r →
  Forall P r.
Proof.
  intros Hwindow.
  induction fuel as [|fuel IH] in start, chunks |- *; simpl; [done|].
  intros Hchunks. case_match.
  - apply IH. apply Forall_app. split; [done|]. by apply Forall_singleton.
  - by intros [= <-].
Qed.

Lemma chunk_loop_terminates fuel text size overlap start chunks :
  (overlap < size)%Z → (0 ≤ start)%Z →
  (Z.max 0 (Z.of_nat (length text) - start) < Z.of_nat fuel)%Z →
  is_Some (chunk_loop isspace fuel text size overlap start chunks).
Proof.
  intros Hstep.
  induction fuel as [|fuel IH] in start, chunks |- *; simpl; [lia|].
  intros Hstart Hfuel. destruct (Z.ltb_spec start (Z.of_nat (length text))); [|done].
  apply IH; lia.
Qed.

Lemma chunk_loop_count fuel text size overlap start chunks r :
  (overlap < size)%Z → (0 ≤ start)%Z →
  chunk_loop isspace fuel text size overlap start chunks = Some r →
  ((Z.of_nat (length r) - Z.of_nat (length chunks)) * (size - overlap)
   ≤ Z.max 0 (Z.of_nat (length text) - start) + (size - overlap) - 1)%Z.
Proof.
  intros Hstep.
  induction fuel as [|fuel IH] in start, chunks |- *; simpl; [done|].
  intros Hstart. destruct (Z.ltb_spec start (Z.of_nat (length text))).
  - intros Hr. pose proof (chunk_loop_acc _ _ _ _ _ _ _ Hr) as [new ->].
    apply IH in Hr; [|lia]. clear IH.
    rewrite !length_app in *. simpl in *.
    replace (Z.of_nat (length chunks + 1 + length new) - Z.of_nat (length chunks + 1))%Z
      with (Z.of_nat (length new)) in Hr by lia.
    replace (Z.of_nat (length chunks + 1 + length new) - Z.of_nat (length chunks))%Z
      with (Z.of_nat (length new) + 1)%Z by lia.
    rewrite (Z.max_r 0 (Z.of_nat (length text) - start)) by lia.
    destruct (Z.max_spec 0 (Z.of_nat (length text) - (start + size - overlap)))
      as [[? Hmax]|[? Hmax]]; rewrite Hmax in Hr; [nia|].
    destruct (length new) as [|m]; [lia|]. exfalso.
    rewrite Nat2Z.inj_succ in Hr. nia.
  - intros [= <-]. lia.
Qed.

Lemma chunk_loop_spins fuel text size overlap start chunks :
  (size ≤ overlap)%Z → (start ≤ 0)%Z → text ≠ [] →
  chunk_loop isspace fuel text size overlap start chunks = None.
Proof.
  intros Hstep Hstart Htext.
  induction fuel as [|fuel IH] in start, chunks, Hstart |- *; simpl; [done|].
  destruct (Z.ltb_spec start (Z.of_nat (length text))) as [_|Hlen].
  - apply IH. lia.
  - destruct text; [done|]. simpl in Hlen. lia.
Qed.

Lemma chunk_loop_covers fuel text size overlap start chunks r :
  (0 ≤ overlap < size)%Z → (0 ≤ start)%Z →
  chunk_loop isspace fuel text size overlap start chunks = Some r →
  ∀ i x, Z.to_nat start ≤ i → text !! i = Some x → isspace x = false →
         ∃ c, c ∈ r ∧ x ∈ c.
Proof.
  intros Hstep.
  induction fuel as [|fuel IH] in start, chunks |- *; simpl; [done|].
  intros Hstart. destruct (Z.ltb_spec start (Z.of_nat (length text))) as [Hin|Hout].
  - intros Hr i x Hi Hx Hns.
    destruct (decide (Z.of_nat i < start + size)%Z) as [Hnear|Hfar].
    + pose proof (chunk_loop_acc _ _ _ _ _ _ _ Hr) as [new ->].
      eexists. split.
      { apply elem_of_app. left. apply elem_of_app. right. by apply list_elem_of_singleton. }
      apply strip_keeps; [|done].
      replace start with (Z.of_nat (Z.to_nat start)) by lia.
      replace size with (Z.of_nat (Z.to_nat size)) at 1 by lia.
      rewrite py_slice_window by lia.
      apply elem_of_take. exists (i - Z.to_nat start). split; [|lia].
      rewrite lookup_drop. rewrite <- Hx. f_equal. lia.
    + assert (0 ≤ start + size - overlap)%Z as Hnext by lia.
      apply (IH _ _ Hnext Hr i x); [lia|done..].
  - intros _ i x Hi Hx. apply lookup_lt_Some in Hx. lia.
Qed.

Lemma chunk_loop_windows fuel text size overlap start chunks r :
  (0 ≤ overlap < size)%Z → (0 ≤ start)%Z →
  Forall (fun x => isspace x = false) text →
  chunk_loop isspace fuel text size overlap start chunks = Some r →
  ∃ new, r = chunks ++ new
    ∧ (∀ k c, new !! k = Some c →
         c ≠ [] ∧ c = take (Z.to_nat size)
                        (drop (Z.to_nat start + k * Z.to_nat (size - overlap)) text))
    ∧ concat (take (Z.to_nat (size - overlap)) <$> new) = drop (Z.to_nat start) text.
Proof.
  intros Hstep Hstart0 Htext.
  induction fuel as [|fuel IH] in start, chunks, Hstart0 |- *; simpl; [done|].
  destruct (Z.ltb_spec start (Z.of_nat (length text))) as [Hin|Hout].
  - intros Hr. apply IH in Hr as (new & -> & Hnew & Hcat); [|lia].
    set (window := take (Z.to_nat size) (drop (Z.to_nat start) text)).
    assert (py_slice text start (start + size) = window) as Hw.
    { replace start with (Z.of_nat (Z.to_nat start)) at 1 2 by lia.
      replace size with (Z.of_nat (Z.to_nat size)) at 1 by lia.
      apply py_slice_window. lia. }
    assert (strip isspace window = window) as Hstrip.
    { apply strip_id. apply Forall_forall. intros x Hx.
      rewrite Forall_forall in Htext. apply Htext.
      apply elem_of_take in Hx as (i & Hx & _). rewrite lookup_drop in Hx.
      by eapply list_elem_of_lookup_2. }
    rewrite Hw, Hstrip, <- app_assoc.
    exists (window :: new). split; [done|]. split.
    + intros [|k] c; simpl.
      * intros [= <-]. split; [|by rewrite Nat.add_0_r].
        intros Hnil. apply (f_equal length) in Hnil.
        unfold window in Hnil. rewrite length_take, length_drop in Hnil. simpl in Hnil. lia.
      * intros Hc. apply Hnew in Hc as [Hne ->]. split; [done|].
        do 2 f_equal. lia.
    + rewrite fmap_cons. cbn [concat]. rewrite Hcat. unfold window.
      rewrite take_take, Nat.min_l by lia.
      replace (Z.to_nat (start + size - overlap))
        with (Z.to_nat start + Z.to_nat (size - overlap)) by lia.
      rewrite <- drop_drop. apply take_drop.
  - intros [= <-]. exists []. rewrite app_nil_r. split; [done|]. split; [done|].
    simpl. rewrite drop_ge; [done|lia].
Qed.
End Chunks.

Lemma filter_all {A} (P : A → Prop) `{∀ x, Decision (P x)} (l : list A) :
  Forall P l → base.filter P l = l.
Proof.
  induction 1 as [|x l Hx Hl IH]; [done|].
  rewrite filter_cons_True by done. by f_equal.
Qed.

Section ChunkText.
Context {char : Type} (isspace : char → bool).
Implicit Types (text : list char) (chunks : list (list char)).

(** X1. With [overlap < chunk_size] the loop of [chunk_text] ends: more
    than [len(text)] iterations are never needed, the chunks do not depend
    on how many more are allowed, and there are at most
    [ceil(len(text) / (chunk_size - overlap))] of them. *)
Theorem chunk_text_terminates text size overlap fuel :
  (overlap < size)%Z → length text < fuel →
  ∃ chunks,
    chunk_text isspace fuel text size overlap = Some chunks
    ∧ (∀ fuel', length text < fuel' →
         chunk_text isspace fuel' text size overlap = Some chunks)
    ∧ (Z.of_nat (length chunks) * (size - overlap)
       < Z.of_nat (length text) + (size - overlap))%Z.
Proof.
  intros Hstep Hfuel. unfold chunk_text.
  destruct text as [|c text'].
  { exists []. split; [done|]. split; [done|]. simpl. lia. }
  set (text := c :: text') in *.
  destruct (chunk_loop_terminates isspace (S (length text)) text size overlap 0 []
              Hstep ltac:(lia) ltac:(lia)) as [r Hr].
  assert (∀ f, length text < f → chunk_loop isspace f text size overlap 0 [] = Some r) as Hall.
  { intros f Hf. eapply chunk_loop_mono; [exact Hr|lia]. }
  exists (base.filter (fun c => nonempty c = true) r).
  split; [by rewrite (Hall fuel Hfuel)|].
  split; [intros fuel' Hfuel'; by rewrite (Hall fuel' Hfuel')|].
  pose proof (chunk_loop_count isspace _ _ _ _ _ _ _ Hstep (Z.le_refl 0) Hr) as Hcount.
  pose proof (length_filter (fun c => nonempty c = true) r) as Hfilter.
  simpl length in Hcount at 2. nia.
Qed.

(** X2. With [chunk_size <= overlap] and a text that is not empty, the
    loop of [chunk_text] never ends: [start] does not advance. *)
Theorem chunk_text_never_returns text size overlap fuel :
  (size ≤ overlap)%Z → text ≠ [] →
  chunk_text isspace fuel text size overlap = None.
Proof.
  intros Hstep Htext. unfold chunk_text.
  destruct text as [|c text']; [done|].
  by rewrite chunk_loop_spins.
Qed.

(** X3. Every chunk that [chunk_text] returns is not empty, neither begins
    nor ends with a whitespace character, is a contiguous part of the text,
    and, for a [chunk_size] that is not negative, has at most [chunk_size]
    characters. *)
Theorem chunk_text_chunks text size overlap fuel chunks :
  chunk_text isspace fuel text size overlap = Some chunks →
  Forall (fun c =>
            c ≠ []
            ∧ (∀ x, hd_error c = Some x → isspace x = false)
            ∧ (∀ x, last c = Some x → isspace x = false)
            ∧ (∃ before after, text = before ++ c ++ after)
            ∧ ((0 ≤ size)%Z → (Z.of_nat (length c) ≤ size)%Z))
         chunks.
Proof.
  unfold chunk_text. destruct text as [|c0 text']; [by intros [= <-]|].
  set (text := c0 :: text').
  destruct (chunk_loop isspace fuel text size overlap 0 []) as [r|] eqn:Hr; [|done].
  simpl. intros [= <-].
  pose (P := fun c : list char =>
               (∀ x, hd_error c = Some x → isspace x = false)
               ∧ (∀ x, last c = Some x → isspace x = false)
               ∧ (∃ before after, text = before ++ c ++ after)
               ∧ ((0 ≤ size)%Z → (Z.of_nat (length c) ≤ size)%Z)).
  assert (∀ s, P (strip isspace (py_slice text s (s + size)))) as Hwindow.
  { intros s. split; [apply strip_head|]. split; [apply strip_last|]. split.
    - destruct (py_slice_infix text s (s + size)) as (b1 & a1 & H1).
      destruct (strip_infix isspace (py_slice text s (s + size))) as (b2 & a2 & H2).
      exists (b1 ++ b2), (a2 ++ a1). rewrite H1 at 1. rewrite H2 at 1.
      by rewrite <- !app_assoc.
    - intros Hsize. pose proof (length_py_slice text s size Hsize).
      pose proof (length_strip isspace (py_slice text s (s + size))). lia. }
  assert (Forall P []) as Hnil by constructor.
  pose proof (chunk_loop_Forall isspace P _ _ _ _ _ _ _ Hwindow Hnil Hr) as Hall.
  rewrite Forall_forall in Hall.
  apply Forall_forall. intros c [Hne Hc]%list_elem_of_filter.
  split; [by destruct c|]. by apply Hall.
Qed.

(** X4. With [0 <= overlap < chunk_size] nothing but whitespace is lost:
    every character of the text that is not whitespace occurs in one of
    the chunks. *)
Theorem chunk_text_covers text size overlap fuel chunks :
  (0 ≤ overlap < size)%Z →
  chunk_text isspace fuel text size overlap = Some chunks →
  ∀ x, x ∈ text → isspace x = false → ∃ c, c ∈ chunks ∧ x ∈ c.
Proof.
  intros Hstep. unfold chunk_text. destruct text as [|c0 text']; [by intros _ x Hx%elem_of_nil|].
  set (text := c0 :: text').
  destruct (chunk_loop isspace fuel text size overlap 0 []) as [r|] eqn:Hr; [|done].
  simpl. intros [= <-] x [i Hi]%list_elem_of_lookup_1 Hns.
  destruct (chunk_loop_covers isspace _ _ _ _ _ _ _ Hstep (Z.le_refl 0) Hr i x)
    as (c & Hc & Hx); [simpl; lia|done..|].
  exists c. split; [|done]. apply list_elem_of_filter. split; [|done].
  destruct c; [by apply elem_of_nil in Hx|done].
Qed.

(** X5. With [0 <= overlap < chunk_size], the chunks of a text without
    whitespace are its windows: the [k]-th chunk is the [chunk_size]
    characters from position [k * (chunk_size - overlap)], and the first
    [chunk_size - overlap] characters of each chunk, put end to end, give
    the text back. *)
Theorem chunk_text_windows text size overlap fuel chunks :
  (0 ≤ overlap < size)%Z →
  Forall (fun x => isspace x = false) text →
  chunk_text isspace fuel text size overlap = Some chunks →
  (∀ k c, chunks !! k = Some c →
     c = take (Z.to_nat size) (drop (k * Z.to_nat (size - overlap)) text))
  ∧ concat (take (Z.to_nat (size - overlap)) <$> chunks) = text.
Proof.
  intros Hstep Htext. unfold chunk_text. destruct text as [|c0 text']; [by intros [= <-]|].
  set (text := c0 :: text') in *.
  destruct (chunk_loop isspace fuel text size overlap 0 []) as [r|] eqn:Hr; [|done].
  simpl. intros [= <-].
  destruct (chunk_loop_windows isspace _ _ _ _ _ _ _ Hstep (Z.le_refl 0) Htext Hr)
    as (new & -> & Hnew & Hcat).
  change ([] ++ new) with new.
  assert (base.filter (fun c => nonempty c = true) new = new) as ->.
  { apply filter_all. apply Forall_forall. intros c [k Hk]%list_elem_of_lookup_1.
    apply Hnew in Hk as [Hne _]. by destruct c. }
  split; [|exact Hcat].
  intros k c Hk. by apply Hnew in Hk as [_ ->].
Qed.

(** X6. A text of whitespace only gives no chunk (with
    [overlap < chunk_size]). *)
Theorem chunk_text_blank text size overlap fuel :
  (overlap < size)%Z → length text < fuel →
  Forall (fun x => isspace x = true) text →
  chunk_text isspace fuel text size overlap = Some [].
Proof.
  intros Hstep Hfuel Htext. unfold chunk_text.
  destruct text as [|c0 text']; [done|]. set (text := c0 :: text') in *.
  destruct (chunk_loop_terminates isspace fuel text size overlap 0 []
              Hstep ltac:(lia) ltac:(lia)) as [r Hr].
  rewrite Hr. simpl. f_equal.
  assert (Forall (fun c => c = []) r) as Hempty.
  { assert (Forall (fun c : list char => c = []) []) as Hnil by constructor.
    refine (chunk_loop_Forall isspace _ _ _ _ _ _ _ _ _ Hnil Hr).
    intros s. apply strip_spaces.
    apply Forall_forall. intros x Hx.
    destruct (py_slice_infix text s (s + size)) as (b & a & Hs).
    rewrite Forall_forall in Htext. apply Htext. rewrite Hs.
    apply elem_of_app. right. apply elem_of_app. by left. }
  clear Hr. induction Hempty as [|c r -> _ IH]; [done|].
  rewrite filter_cons_False; [exact IH|]. simpl. discriminate.
Qed.
End ChunkText.

Lemma chunk_text_terminates_witness :
  ∃ chunks,
    chunk_text ascii_isspace 11 (chars "abcdefghij") 4 1 = Some chunks
    ∧ chunk_text ascii_isspace 500 (chars "abcdefghij") 4 1 = Some chunks
    ∧ length chunks ≤ 4.
Proof.
  destruct (chunk_text_terminates ascii_isspace (chars "abcdefghij") 4 1 11)
    as (chunks & Hchunks & Hany & Hcount); [lia | simpl; lia |].
  exists chunks. split; [exact Hchunks|]. split.
  - apply Hany. simpl. lia.
  - simpl in Hcount. lia.
Defined.

Lemma chunk_text_never_returns_witness :
  chunk_text ascii_isspace 1000 (chars "abc") 50 50 = None.
Proof.
  apply chunk_text_never_returns; [lia | discriminate].
Defined.

Lemma chunk_text_chunks_witness :
  ∃ chunks,
    chunk_text ascii_isspace 20 (chars "  gene A   is  up ") 6 2 = Some chunks
    ∧ Forall (fun c => c ≠ [] ∧ (Z.of_nat (length c) ≤ 6)%Z
                       ∧ ∃ before after, chars "  gene A   is  up " = before ++ c ++ after)
             chunks.
Proof.
  eexists. split; [vm_compute; reflexivity|].
  eapply Forall_impl.
  - apply (chunk_text_chunks ascii_isspace (chars "  gene A   is  up ") 6 2 20).
    vm_compute. reflexivity.
  - intros c (Hne & _ & _ & Hpart & Hlen). split; [exact Hne|]. split; [apply Hlen; lia|exact Hpart].
Defined.

Lemma chunk_text_covers_witness :
  ∃ chunks c,
    chunk_text ascii_isspace 10 (chars "ab cd") 3 1 = Some chunks
    ∧ c ∈ chunks ∧ Ascii.ascii_of_nat 100 ∈ c.
Proof.
  eexists.
  destruct (chunk_text_covers ascii_isspace (chars "ab cd") 3 1 10 _ ltac:(lia) eq_refl
              (Ascii.ascii_of_nat 100)) as (c & Hc & Hx).
  - vm_compute. repeat constructor.
  - reflexivity.
  - exists c. split; [reflexivity|]. split; [exact Hc|exact Hx].
Defined.

Lemma chunk_text_windows_witness :
  ∃ chunks,
    chunk_text ascii_isspace 11 (chars "abcdefghij") 4 1 = Some chunks
    ∧ chunks !! 2 = Some (chars "ghij")
    ∧ concat (take 3 <$> chunks) = chars "abcdefghij".
Proof.
  eexists. split; [vm_compute; reflexivity|].
  destruct (chunk_text_windows ascii_isspace (chars "abcdefghij") 4 1 11 _ ltac:(lia)
              ltac:(vm_compute; repeat constructor) eq_refl) as [Hwindow Hcat].
  split; [reflexivity|exact Hcat].
Defined.

Lemma chunk_text_blank_witness :
  chunk_text ascii_isspace 4 (chars "   ") 500 50 = Some [].
Proof.
  apply chunk_text_blank; [lia | simpl; lia | vm_compute; repeat constructor].
Defined.

(** ** Entities *)

Lemma py_slice_prefix {A} (l : list A) (n : Z) :
  (0 ≤ n)%Z → py_slice l 0 n = take (Z.to_nat n) l.
Proof.
  intros Hn. unfold py_slice, slice_bound. simpl.
  destruct (Z.ltb_spec n 0); [lia|].
  rewrite (Z.min_l 0) by lia. change (Z.to_nat 0) with 0. rewrite drop_0, Z.sub_0_r.
  destruct (decide (n ≤ Z.of_nat (length l))%Z).
  - by rewrite Z.min_l by lia.
  - rewrite Z.min_r by lia. rewrite Nat2Z.id. rewrite !take_ge; [done|lia..].
Qed.

Section Entities.
Context {char : Type} `{EqDecision char} (lower : list char → list char).
Implicit Types (ents : list (entity char)) (seen : list (list char * list char)).

Lemma collect_entities_sublist ents seen :
  collect_entities lower ents seen `sublist_of` ents.
Proof.
  induction ents as [|e ents IH] in seen |- *; simpl; [constructor|].
  case_decide; [by apply sublist_cons|by apply sublist_skip].
Qed.

Lemma collect_entities_fresh ents seen k :
  k ∈ entity_key lower <$> collect_entities lower ents seen → k ∉ seen.
Proof.
  induction ents as [|e ents IH] in seen |- *; simpl; [by intros ?%elem_of_nil|].
  case_decide as Hseen; [apply IH|].
  rewrite fmap_cons. intros [->|Hk]%elem_of_cons; [done|].
  apply IH in Hk. rewrite not_elem_of_cons in Hk. tauto.
Qed.

Lemma collect_entities_NoDup ents seen :
  NoDup (entity_key lower <$> collect_entities lower ents seen).
Proof.
  induction ents as [|e ents IH] in seen |- *; simpl; [constructor|].
  case_decide as Hseen; [apply IH|].
  rewrite fmap_cons. apply NoDup_cons. split; [|apply IH].
  intros Hk%collect_entities_fresh. apply Hk. by left.
Qed.

Lemma collect_entities_complete ents seen e :
  e ∈ ents →
  entity_key lower e ∈ seen
  ∨ entity_key lower e ∈ entity_key lower <$> collect_entities lower ents seen.
Proof.
  induction ents as [|e' ents IH] in seen |- *; simpl; [by intros ?%elem_of_nil|].
  intros [->|He]%elem_of_cons.
  - case_decide as Hseen; [by left|]. right. rewrite fmap_cons. by left.
  - case_decide as Hseen; [by apply IH|].
    destruct (IH (entity_key lower e' :: seen) He) as [[->|Hin]%elem_of_cons|Hin].
    + right. rewrite fmap_cons. by left.
    + by left.
    + right. rewrite fmap_cons. by right.
Qed.

(** X7. [extract_entities_simple] gives the empty list when spaCy is not
    installed, and fails only when spaCy is installed with neither model.
    Otherwise it runs the scientific model, or the web model when the
    scientific one is missing, on the first 10000 characters, and returns
    at most 50 of the entities found, in the order found, no two of them
    with the same lower-cased text and label; when fewer than 50 are
    returned, every entity found is represented among them. *)
Theorem extract_entities_simple_result (spacy : spacy_install char) text :
  match extract_entities_simple lower spacy text with
  | Ok ents =>
      length ents ≤ 50
      ∧ NoDup (entity_key lower <$> ents)
      ∧ match spacy with
        | NoSpacy => ents = []
        | Spacy sci web =>
            ∃ nlp, (sci = Some nlp ∨ (sci = None ∧ web = Some nlp))
              ∧ ents `sublist_of` nlp (take (Z.to_nat 10000) text)
              ∧ (length ents < 50 →
                 ∀ e, e ∈ nlp (take (Z.to_nat 10000) text) →
                      entity_key lower e ∈ entity_key lower <$> ents)
        end
  | Err e => spacy = Spacy None None
  end.
Proof.
  assert (∀ nlp : list char → list (entity char),
            let found := collect_entities lower (nlp (take (Z.to_nat 10000) text)) [] in
            length (take 50 found) ≤ 50
            ∧ NoDup (entity_key lower <$> take 50 found)
            ∧ take 50 found `sublist_of` nlp (take (Z.to_nat 10000) text)
            ∧ (length (take 50 found) < 50 →
               ∀ e, e ∈ nlp (take (Z.to_nat 10000) text) →
                    entity_key lower e ∈ entity_key lower <$> take 50 found)) as Hrun.
  { intros nlp found. split; [rewrite length_take; lia|]. split; [|split].
    - rewrite fmap_take. eapply sublist_NoDup; [|apply sublist_take].
      apply collect_entities_NoDup.
    - etrans; [apply sublist_take|apply collect_entities_sublist].
    - intros Hfew e He. rewrite length_take in Hfew.
      rewrite take_ge by lia.
      destruct (collect_entities_complete _ [] e He) as [Hin|Hin]; [|done].
      by apply elem_of_nil in Hin. }
  unfold extract_entities_simple.
  rewrite py_slice_prefix by lia.
  destruct spacy as [|[sci|] [web|]]; simpl.
  - split; [lia|]. split; [constructor|done].
  - destruct (Hrun sci) as (? & ? & ? & ?). eauto 10.
  - destruct (Hrun sci) as (? & ? & ? & ?). eauto 10.
  - destruct (Hrun web) as (? & ? & ? & ?). eauto 10.
  - done.
Qed.
End Entities.

(** ** Chunk ids *)

Lemma append_same_length (a b x y : string) :
  String.length a = String.length b → a +:+ x = b +:+ y → a = b ∧ x = y.
Proof.
  induction a as [|c a IH] in b |- *; destruct b as [|d b]; simpl; try done.
  intros [= Hlen] [= -> Heq]. destruct (IH b Hlen Heq) as [-> ->]. done.
Qed.

#[local] Instance chunk_id_inj doc_id : Inj (=) (=) (chunk_id doc_id).
Proof.
  intros i j Heq. unfold chunk_id in Heq.
  apply (inj (String.append doc_id)) in Heq.
  apply (inj (String.append "_chunk_")) in Heq.
  by apply (inj pretty) in Heq.
Qed.

(** X8. What [add_document] hands to [collection.add] has one id and one
    metadata per chunk; the ids are pairwise distinct; the [k]-th id is
    [<doc_id>_chunk_<k>] and the [k]-th metadata carries the document name
    and [k]. When the call succeeds [add_document] returns the number of
    chunks; with no chunks it returns 0 and does not call the vector store
    at all, whatever state that is in. *)
Theorem add_document_request {A K} (collection_add : add_request A → K → result unit * K)
    doc_id doc_name (chunks : list A) kb :
  let req := add_request_of doc_id doc_name chunks in
  length (add_ids req) = length chunks
  ∧ length (add_metadatas req) = length chunks
  ∧ add_documents req = chunks
  ∧ NoDup (add_ids req)
  ∧ (∀ k, k < length chunks →
       add_ids req !! k = Some (chunk_id doc_id k)
       ∧ add_metadatas req !! k = Some (chunk_metadata doc_name k))
  ∧ match chunks with
    | [] => add_document collection_add doc_id doc_name chunks kb = (Ok 0, kb)
    | _ =>
        add_document collection_add doc_id doc_name chunks kb
        = (match (collection_add req kb).1 with
           | Ok _ => Ok (length chunks)
           | Err e => Err e
           end, (collection_add req kb).2)
    end.
Proof.
  intros req. subst req. unfold add_request_of; simpl.
  rewrite !length_fmap, !length_seq.
  split; [done|]. split; [done|]. split; [done|]. split; [|split].
  - apply NoDup_fmap_2; [apply _|apply NoDup_seq].
  - intros k Hk. rewrite !list_lookup_fmap, lookup_seq_lt by done. done.
  - destruct chunks as [|c chunks]; [done|].
    unfold add_document, add_request_of.
    destruct (collection_add _ kb) as [[[]|e] kb']; done.
Qed.

(** X9. Chunk ids tell documents apart: for document ids of the same length
    (an upload uses 12 hexadecimal digits), two chunk ids are equal only for
    the same document and the same chunk index. *)
Theorem chunk_ids_do_not_collide d1 d2 i j :
  String.length d1 = String.length d2 →
  chunk_id d1 i = chunk_id d2 j → d1 = d2 ∧ i = j.
Proof.
  intros Hlen Heq. unfold chunk_id in Heq.
  apply append_same_length in Heq as [-> Heq]; [|done].
  split; [done|].
  apply (inj (String.append "_chunk_")) in Heq.
  by apply (inj pretty) in Heq.
Qed.

Lemma chunk_ids_do_not_collide_witness :
  chunk_id "9f2c41d07ab3" 1 ≠ chunk_id "9f2c41d07ab4" 1
  ∧ chunk_id "9f2c41d07ab3" 1 ≠ chunk_id "9f2c41d07ab3" 10.
Proof.
  split; intros Heq.
  - apply chunk_ids_do_not_collide in Heq as [Hdoc _]; [discriminate Hdoc | reflexivity].
  - apply chunk_ids_do_not_collide in Heq as [_ Hindex]; [discriminate Hindex | reflexivity].
Defined.

Lemma add_document_request_witness :
  let req := add_request_of "9f2c41d07ab3" "paper.pdf" ["alpha"; "beta"] in
  add_ids req !! 1 = Some "9f2c41d07ab3_chunk_1"
  ∧ add_metadatas req !! 1 = Some [("document", PStr "paper.pdf"); ("chunk_index", PInt 1)].
Proof.
  intros req.
  destruct (add_document_request (fun (_ : add_request string) (kb : unit) => (Ok tt, kb))
              "9f2c41d07ab3" "paper.pdf" ["alpha"; "beta"] tt)
    as (_ & _ & _ & _ & Hkth & _).
  apply (Hkth 1). simpl. lia.
Defined.

(** ** Datasets over HTTP *)

Lemma lookup_active_Active st h df :
  lookup_active st h = Active df →
  ∃ id, active_dataset_id st = Some id ∧ id ≠ "" ∧ dataset st h id = Some df.
Proof.
  unfold lookup_active. destruct (active_dataset_id st) as [id|]; [|done].
  destruct (String.eqb_spec id ""); [done|].
  destruct (dataset st h id) as [df'|] eqn:E; [|done].
  intros [= <-]. eauto.
Qed.

(** X10. [_get_df] with an id that is not empty answers for that id alone:
    the dataset stored under it, or 404, also when another dataset is
    active. With no id, or the empty one, it answers for the active
    dataset, and finds one exactly when the chat tools do. *)
Theorem get_df_resolution st h :
  (∀ fid, fid ≠ "" →
     _get_df (Some fid) st h
     = match dataset st h fid with
       | Some df => Respond (fid, df)
       | None => no_dataset_found
       end)
  ∧ _get_df (Some "") st h = _get_df None st h
  ∧ _get_df None st h
    = match lookup_active st h, active_dataset_id st with
      | Active df, Some id => Respond (id, df)
      | _, _ => no_dataset_found
      end.
Proof.
  split; [|split].
  - intros fid Hfid. unfold _get_df. simpl.
    destruct (String.eqb_spec fid ""); [done|]. simpl.
    by destruct (String.eqb_spec fid "").
  - done.
  - unfold _get_df, lookup_active. simpl.
    destruct (active_dataset_id st) as [id|]; [|done].
    destruct (String.eqb id ""); [done|].
    by destruct (dataset st h id).
Qed.

Lemma get_df_resolution_witness :
  _get_df (Some "0123456789ab") (store_of 0 []) [genes] = no_dataset_found
  ∧ _get_df (Some "a1b2c3") (store_of 0 []) [genes] = Respond ("a1b2c3", genes).
Proof.
  destruct (get_df_resolution (store_of 0 []) [genes]) as (Hexplicit & _ & _).
  split.
  - apply (Hexplicit "0123456789ab"). discriminate.
  - apply (Hexplicit "a1b2c3"). discriminate.
Defined.

Section Uploads.
Context {bytes : Type} (load_file : bytes → string → result DataFrame).

(** X11. An upload that fails (no file name, or a file that does not
    parse) answers 400 and changes nothing. One that succeeds puts the
    parsed table on the heap as a new object, stores it and its metadata
    under the new id and makes it the active dataset, which the chat tools
    and [_get_df] then find (for an id that is not empty); datasets under
    other ids, the history and the document metadata stay as they were.
    The response previews the first 5 rows and reports the full row
    count. *)
Theorem upload_data_effects file_id filename contents st h :
  match upload_data load_file file_id filename contents st h with
  | (Respond r, st', h') =>
      ∃ name df,
        filename = Some name ∧ load_file contents name = Ok df
        ∧ h' = h ++ [df]
        ∧ dataset st' h' file_id = Some df
        ∧ active_dataset_id st' = Some file_id
        ∧ data_meta st' !! file_id
          = Some {| filename := name; meta_columns := columns df;
                    meta_row_count := df_len df |}
        ∧ (file_id ≠ "" →
           lookup_active st' h' = Active df
           ∧ _get_df None st' h' = Respond (file_id, df))
        ∧ (∀ id, id ≠ file_id →
             data_frames st' !! id = data_frames st !! id
             ∧ data_meta st' !! id = data_meta st !! id)
        ∧ (∀ id d, id ≠ file_id → dataset st h id = Some d → dataset st' h' id = Some d)
        ∧ conversation_history st' = conversation_history st
        ∧ document_meta st' = document_meta st
        ∧ up_file_id r = file_id
        ∧ up_preview r = take 5 (to_dict_records (fillna_empty df))
        ∧ length (up_preview r) = min 5 (df_len df)
        ∧ up_row_count r = df_len df
  | (HTTPException code detail, st', h') => code = 400 ∧ st' = st ∧ h' = h
  end.
Proof.
  unfold upload_data.
  destruct filename as [name|]; [|done].
  destruct (String.eqb name ""); [done|].
  destruct (load_file contents name) as [df|e] eqn:Hload; [|done].
  exists name, df.
  assert (dataset
            {| data_frames := <[file_id := length h]> (data_frames st);
               data_meta := <[file_id := {| filename := name; meta_columns := columns df;
                                            meta_row_count := df_len df |}]> (data_meta st);
               active_dataset_id := Some file_id;
               document_meta := document_meta st;
               conversation_history := conversation_history st |}
            (h ++ [df]) file_id = Some df) as Hnew.
  { unfold dataset; simpl. rewrite lookup_insert_eq. simpl.
    by rewrite lookup_app_r, Nat.sub_diag by lia. }
  repeat split; try done; simpl.
  - apply lookup_insert_eq.
  - unfold lookup_active; simpl. destruct (String.eqb_spec file_id ""); [done|].
    by rewrite Hnew.
  - unfold _get_df; simpl. destruct (String.eqb_spec file_id ""); [done|]. simpl.
    destruct (String.eqb_spec file_id ""); [done|]. by rewrite Hnew.
  - by apply lookup_insert_ne.
  - by apply lookup_insert_ne.
  - intros id d Hid. unfold dataset; simpl. rewrite lookup_insert_ne by done.
    destruct (data_frames st !! id) as [ref|]; simpl; [|done].
    apply lookup_app_l_Some.
  - apply to_dict_records_head.
  - by rewrite to_dict_records_head, length_take, length_to_dict_records, df_len_fillna.
Qed.
End Uploads.

Lemma upload_data_effects_witness :
  let up := upload_data read_table "0123456789ab" (Some "wide.csv") wide
              (store_of 0 greeting) [genes] in
  lookup_active up.1.2 up.2 = Active wide
  ∧ dataset up.1.2 up.2 "a1b2c3" = Some genes
  ∧ (upload_data read_table "0123456789ab" (Some "broken.csv") wide
       (store_of 0 greeting) [genes]).1.2 = store_of 0 greeting.
Proof.
  intros up.
  pose proof (upload_data_effects read_table "0123456789ab" (Some "wide.csv") wide
                (store_of 0 greeting) [genes]) as Hok.
  pose proof (upload_data_effects read_table "0123456789ab" (Some "broken.csv") wide
                (store_of 0 greeting) [genes]) as Hbad.
  fold up in Hok.
  destruct up as [[[r|code detail] st'] h'] eqn:Hup; [|vm_compute in Hup; discriminate Hup].
  destruct Hok as (name & df & Hname & Hload & _ & _ & _ & _ & Hactive & _ & Hkept & _).
  injection Hname as <-. vm_compute in Hload. injection Hload as <-.
  split; [apply Hactive; discriminate|].
  split; [apply Hkept; [discriminate|reflexivity]|].
  destruct (upload_data read_table "0123456789ab" (Some "broken.csv") wide _ _)
    as [[[r'|code detail] st''] h''] eqn:Hup'; [vm_compute in Hup'; discriminate Hup'|].
  by destruct Hbad as (_ & -> & _).
Defined.


Lemma extract_entities_simple_result_witness :
  extract_entities_simple ascii_lower (Spacy None (Some toy_model)) (chars "BRCA1 and TP53")
  = Ok [ {| ent_text := chars "BRCA1"; ent_label := chars "GENE" |};
         {| ent_text := chars "TP53"; ent_label := chars "GENE" |} ]
  ∧ entity_key ascii_lower {| ent_text := chars "brca1"; ent_label := chars "GENE" |}
    ∈ [(chars "brca1", chars "GENE"); (chars "tp53", chars "GENE")].
Proof.
  pose proof (extract_entities_simple_result ascii_lower (Spacy None (Some toy_model))
                (chars "BRCA1 and TP53")) as Hres.
  destruct (extract_entities_simple _ _ _) as [ents|e] eqn:Hents; [|discriminate Hres].
  vm_compute in Hents. injection Hents as <-.
  split; [reflexivity|].
  destruct Hres as (_ & _ & nlp & [Hsci|[_ Hweb]] & _ & Hall); [discriminate Hsci|].
  injection Hweb as <-.
  apply (Hall ltac:(simpl; lia)). vm_compute. repeat constructor.
Defined.


(** ** The states the server reaches *)

Lemma store_ok_active st h id : store_ok st h → lookup_active st h ≠ NotStored id.
Proof.
  intros [Hrefs Hactive _ _]. unfold lookup_active.
  destruct (active_dataset_id st) as [id'|] eqn:Ha; [|done].
  destruct (String.eqb id' ""); [done|].
  destruct (Hactive id' eq_refl) as [ref Href].
  unfold dataset. rewrite Href. simpl.
  destruct (lookup_lt_is_Some_2 h ref (Hrefs _ _ Href)) as [df ->]. done.
Qed.

Lemma store_ok_cleared st h :
  data_frames st = ∅ → data_meta st = ∅ → active_dataset_id st = None → store_ok st h.
Proof.
  intros Hf Hm Ha. split; rewrite ?Hf, ?Hm, ?Ha.
  - intros id ref. by rewrite lookup_empty.
  - done.
  - intros id. rewrite !lookup_empty. split; intros [? ?]; done.
  - intros id m df. by rewrite lookup_empty.
Qed.

Lemma keeps_datasets_refl {W} (σ : State W) : keeps_datasets σ σ.
Proof. by repeat split. Qed.

Lemma keeps_datasets_trans {W} (σ1 σ2 σ3 : State W) :
  keeps_datasets σ1 σ2 → keeps_datasets σ2 σ3 → keeps_datasets σ1 σ3.
Proof.
  intros (Hf & Hm & Ha & Hh) (Hf' & Hm' & Ha' & Hh').
  repeat split; try congruence.
  intros r Hr. rewrite <- Hh by done. apply Hh'.
  apply lookup_lt_is_Some. rewrite Hh by done. by apply lookup_lt_is_Some.
Qed.

Lemma store_ok_keeps {W} (σ σ' : State W) :
  store_ok (store σ) (heap σ) → keeps_datasets σ σ' → store_ok (store σ') (heap σ').
Proof.
  intros [Hrefs Hactive Hmeta Hdescr] (Hf & Hm & Ha & Hh).
  split; rewrite ?Hf, ?Hm, ?Ha; try done.
  - intros id ref Hid. apply Hrefs in Hid. apply lookup_lt_is_Some.
    rewrite Hh by done. by apply lookup_lt_is_Some.
  - intros id m df Hid. unfold dataset. rewrite Hf.
    destruct (data_frames (store σ) !! id) as [ref|] eqn:Href; simpl; [|done].
    rewrite Hh by eauto. intros Hdf.
    apply (Hdescr id m df Hid). unfold dataset. by rewrite Href.
Qed.

Section Reachable.
Context {bytes Reply W : Type}.
Context (load_file : bytes → string → result DataFrame).
Context (make_response : string → pyval → pyval → pyval → result Reply).
Context (C : Collaborators W) (strip : string → string).
Context (Hscripts : scripts_keep_datasets C).

Lemma execute_tool_keeps name args σ :
  keeps_datasets σ (_execute_tool C name args σ).2.
Proof.
  destruct (execute_tool_state C name args σ) as [-> | (code & df & _ & _ & _ & ->)].
  { apply keeps_datasets_refl. }
  rewrite execute_code_state. unfold script_run.
  destruct (Hscripts code (length (heap σ)) (alarm C 10) (allocate σ df))
    as (Hf & Hm & Ha & Hh).
  repeat split; try done.
  intros r Hr. rewrite Hh.
  - simpl. by rewrite lookup_app_l.
  - lia.
  - simpl. rewrite length_app. lia.
Qed.

Lemma run_tool_calls_keeps calls ls :
  keeps_datasets (sys ls) (sys (run_tool_calls C calls ls).2).
Proof.
  induction calls as [|tc rest IH] in ls |- *; simpl; [apply keeps_datasets_refl|].
  destruct (json_loads C (fn_arguments tc)) as [fn_args|e]; simpl;
    [|apply keeps_datasets_refl].
  pose proof (execute_tool_keeps (fn_name tc) fn_args (sys ls)) as Hk.
  destruct (_execute_tool C (fn_name tc) fn_args (sys ls)) as [done σ'].
  destruct done as [tool_result|e|cls msg|]; simpl; [|done|done|done].
  destruct (json_dumps C (PDict tool_result)); simpl; [|done].
  eapply keeps_datasets_trans; [exact Hk|]. apply (IH {| sys := σ' |}).
Qed.

Lemma chat_keeps message σ : keeps_datasets σ (chat C message σ).2.
Proof.
  unfold chat. destruct (_get_client C); [|apply keeps_datasets_refl].
  assert (keeps_datasets σ
            (chat_try C (build_messages C (store σ) (heap σ) message) blank
               (record_turn σ (user_turn message))).2) as Hk.
  { unfold chat_try.
    destruct (complete C _ true) as [am|e]; [|by repeat split].
    destruct (tool_calls am) as [|tc rest]; [by repeat split|].
    pose proof (run_tool_calls_keeps (tc :: rest)
                  {| resp := blank;
                     msgs := build_messages C (store σ) (heap σ) message ++ [AssistantMsg am];
                     sys := record_turn σ (user_turn message) |}) as Hk.
    destruct (run_tool_calls C (tc :: rest) _) as [looped ls].
    assert (keeps_datasets σ (sys ls)) as Hk'.
    { eapply keeps_datasets_trans; [|exact Hk]. by repeat split. }
    destruct looped as [[]|e|cls msg|]; simpl; [|done|done|done].
    by destruct (complete C (msgs ls) false). }
  unfold chat_finish.
  destruct (chat_try C _ blank _) as [[ended rd] σ']. simpl in Hk.
  assert (∀ t, keeps_datasets σ (record_turn σ' t)) as Hk'.
  { intros t. eapply keeps_datasets_trans; [exact Hk|]. by repeat split. }
  by destruct ended as [[]|e|cls msg|].
Qed.

Lemma send_message_keeps message σ :
  keeps_datasets σ (send_message make_response C strip message σ).2.
Proof.
  unfold send_message.
  destruct (String.eqb (strip message) ""); [apply keeps_datasets_refl|].
  pose proof (chat_keeps message σ) as Hk.
  by destruct (chat C message σ).
Qed.

Lemma upload_data_ok file_id filename contents st h :
  store_ok st h →
  store_ok (upload_data load_file file_id filename contents st h).1.2
           (upload_data load_file file_id filename contents st h).2.
Proof.
  intros Hok. unfold upload_data.
  destruct filename as [name|]; [|done].
  destruct (String.eqb name ""); [done|].
  destruct (load_file contents name) as [df|e]; [|done].
  destruct Hok as [Hrefs Hactive Hmeta Hdescr]. simpl. split; simpl.
  - intros id ref. rewrite length_app. simpl.
    destruct (decide (file_id = id)) as [->|Hne].
    + rewrite lookup_insert_eq. intros [= <-]. lia.
    + rewrite lookup_insert_ne by done. intros Hid%Hrefs. lia.
  - intros id [= <-]. rewrite lookup_insert_eq. eauto.
  - intros id. destruct (decide (file_id = id)) as [->|Hne].
    + rewrite !lookup_insert_eq. split; eauto.
    + rewrite !lookup_insert_ne by done. apply Hmeta.
  - intros id m d. unfold dataset; simpl.
    destruct (decide (file_id = id)) as [->|Hne].
    + rewrite !lookup_insert_eq. simpl.
      rewrite lookup_app_r, Nat.sub_diag by lia. simpl. by intros [= <-] [= <-].
    + rewrite !lookup_insert_ne by done. intros Hm.
      destruct (data_frames st !! id) as [ref|] eqn:Href; simpl; [|done].
      rewrite lookup_app_l by eauto. intros Hd.
      apply (Hdescr id m d Hm). unfold dataset. by rewrite Href.
Qed.

(** X12. As long as the scripts the chat runs leave the dataset entries of
    the store and the objects already on the heap alone, in every state the
    server reaches each reference held by [data_frames] points to an
    object, the active id (when there is one) is a key of [data_frames],
    [data_meta] has the keys of [data_frames], and the columns and the row
    count recorded in the metadata are those of the stored table. So
    [store.data_frames[store.active_dataset_id]] does not raise [KeyError]
    in a tool. *)
Theorem reachable_store_ok σ :
  reachable load_file make_response C strip σ →
  store_ok (store σ) (heap σ) ∧ ∀ id, active_of σ ≠ NotStored id.
Proof.
  intros Hreach.
  assert (store_ok (store σ) (heap σ)) as Hok;
    [|split; [done|intros id; by apply store_ok_active]].
  induction Hreach as [w|σ file_id filename contents _ IH|σ message _ IH
                       |σ _ IH|σ _ IH|σ dm w _ IH].
  - by apply store_ok_cleared.
  - by apply upload_data_ok.
  - eapply store_ok_keeps; [exact IH|apply send_message_keeps].
  - eapply store_ok_keeps; [exact IH|by repeat split].
  - by apply store_ok_cleared.
  - apply (store_ok_keeps σ); [exact IH|by repeat split].
Qed.
End Reachable.

Lemma lab_keeps_datasets key alarm : scripts_keep_datasets (lab key alarm).
Proof.
  intros code ref deadline σ. simpl. unfold run_script.
  repeat (case_match; simpl; try done).
  repeat split; try done. intros r Hr _. by rewrite list_lookup_insert_ne.
Qed.

Lemma reachable_store_ok_witness :
  let C := lab "key" true in
  let up := upload_data read_table "a1b2c3" (Some "genes.csv") genes empty_store [] in
  let sent := send_message reply_of C ascii_strip "drop everything"
                {| store := up.1.2; heap := up.2; world := 0 |} in
  store_ok (store sent.2) (heap sent.2) ∧ active_of sent.2 ≠ NotStored "a1b2c3".
Proof.
  intros C up sent.
  destruct (reachable_store_ok read_table reply_of C ascii_strip
              (lab_keeps_datasets "key" true) sent.2)
    as [Hok Hactive].
  - apply reach_message.
    apply (reach_upload read_table reply_of C ascii_strip
             {| store := empty_store; heap := []; world := 0 |}
             "a1b2c3" (Some "genes.csv") genes).
    apply reach_start.
  - split; [exact Hok|apply Hactive].
Defined.

(** ** The same data engine behind two doors *)

Lemma lookup_active_get_df st h df :
  lookup_active st h = Active df →
  ∃ id, _get_df None st h = Respond (id, df).
Proof.
  intros Hactive.
  destruct (lookup_active_Active st h df Hactive) as (id & Hid & Hne & Hdf).
  exists id. unfold _get_df. simpl. rewrite Hid. destruct (String.eqb_spec id ""); [done|].
  by rewrite Hdf.
Qed.

(** X13. On the active dataset, [POST /filter] and the chat tool
    [filter_data] agree: when the data engine raises, the route answers 400
    with the exception's text and the tool raises it; otherwise both report
    the same columns and the same full row count, the route previews the
    first 100 rows and the tool the first 50 of these. [POST /aggregate] and
    [aggregate_data] return the same rows, all of them. *)
Theorem routes_and_tools_agree {W} (C : Collaborators W) σ df :
  active_of σ = Active df →
  (∀ conditions,
     match filter_endpoint C None conditions (store σ) (heap σ),
           (_execute_tool C "filter_data" (PDict [("conditions", PStr conditions)]) σ).1 with
     | Respond r, Returns d =>
         d = [("data", PList (take 50 (resp_data r)));
              ("columns", PList (PStr <$> resp_columns r));
              ("row_count", PInt (Z.of_nat (resp_row_count r)))]
         ∧ length (resp_data r) = min 100 (resp_row_count r)
     | HTTPException code detail, Raises e =>
         code = 400 ∧ detail = "Filter error: " +:+ exn_str e
     | _, _ => False
     end)
  ∧ (∀ group_column value_column agg_func,
       match aggregate_endpoint C None group_column value_column agg_func
               (store σ) (heap σ),
             (_execute_tool C "aggregate_data"
                (PDict [("group_column", PStr group_column);
                        ("value_column", PStr value_column);
                        ("agg_func", PStr agg_func)]) σ).1 with
       | Respond r, Returns d =>
           d = [("data", PList (resp_data r));
                ("columns", PList (PStr <$> resp_columns r));
                ("row_count", PInt (Z.of_nat (resp_row_count r)))]
           ∧ length (resp_data r) = resp_row_count r
       | HTTPException code detail, Raises e =>
           code = 400 ∧ detail = "Aggregation error: " +:+ exn_str e
       | _, _ => False
       end).
Proof.
  intros Hactive.
  destruct (lookup_active_get_df _ _ _ Hactive) as [id Hget].
  split.
  - intros conditions. unfold filter_endpoint, _execute_tool. rewrite Hget, Hactive. simpl.
    destruct (filter_data C df (PStr conditions)) as [res|e]; simpl; [|done].
    unfold filter_envelope, column_list.
    rewrite !to_dict_records_head, take_take, length_take, length_to_dict_records,
      df_len_fillna.
    done.
  - intros group_column value_column agg_func.
    unfold aggregate_endpoint, _execute_tool. rewrite Hget, Hactive. simpl.
    destruct (aggregate_data C df _ _ _) as [res|e]; simpl; [|done].
    unfold aggregate_envelope, column_list.
    by rewrite length_to_dict_records, df_len_fillna.
Qed.

Lemma routes_and_tools_agree_witness :
  ∃ r d,
    filter_endpoint (lab "key" true) None "expression > 0" (store_of 0 []) [wide] = Respond r
    ∧ (_execute_tool (lab "key" true) "filter_data"
         (PDict [("conditions", PStr "expression > 0")]) (bench wide [])).1 = Returns d
    ∧ resp_row_count r = 51 ∧ length (resp_data r) = 51
    ∧ dict_get "data" d = Some (PList (take 50 (resp_data r))).
Proof.
  destruct (routes_and_tools_agree (lab "key" true) (bench wide []) wide eq_refl)
    as [Hfilter _].
  specialize (Hfilter "expression > 0").
  destruct (filter_endpoint _ _ _ _ _) as [r|code detail] eqn:Hr;
    [|vm_compute in Hr; discriminate Hr].
  destruct (_execute_tool _ _ _ _).1 as [d|e|cls msg|] eqn:Hd; try done.
  destruct Hfilter as [-> Hlen].
  exists r. eexists. split; [reflexivity|]. split; [reflexivity|].
  injection Hr as <-. repeat split.
Defined.

(** ** Messages over HTTP *)

Section Messages.
Context {Reply W : Type}.
Context (make_response : string → pyval → pyval → pyval → result Reply).
Context (C : Collaborators W) (strip : string → string).

End Messages.


(** ** Tool messages *)



(** ** Optional arguments *)

Lemma dict_get_app k (d d' : dict) :
  dict_get k (d ++ d') = match dict_get k d with Some v => Some v | None => dict_get k d' end.
Proof.
  induction d as [|[k' v] d IH]; simpl; [done|].
  by destruct (String.eqb k k').
Qed.

Lemma dict_get_app_None k k' v (d : dict) :
  dict_get k d = None → dict_get k (d ++ [(k', v)]) = if String.eqb k k' then Some v else None.
Proof. intros Hk. rewrite dict_get_app, Hk. simpl. done. Qed.

Lemma dict_get_app_other k k' v (d : dict) :
  String.eqb k k' = false → dict_get k (d ++ [(k', v)]) = dict_get k d.
Proof.
  intros Hk. rewrite dict_get_app. simpl. rewrite Hk. by destruct (dict_get k d).
Qed.

(** X16. An argument that the code reads with [args.get] may be left out:
    [aggregate_data] without [agg_func] does what it does with
    [agg_func = "mean"] (although the schema lists it as required),
    [search_documents] without [top_k] what it does with [top_k = 5], and
    [generate_plot] without [y_column] and [title] what it does with both
    [None]. *)
Theorem optional_arguments_default {W} (C : Collaborators W) σ (args : dict) :
  (dict_get "agg_func" args = None →
     _execute_tool C "aggregate_data" (PDict args) σ
     = _execute_tool C "aggregate_data" (PDict (args ++ [("agg_func", PStr "mean")])) σ)
  ∧ (dict_get "top_k" args = None →
     _execute_tool C "search_documents" (PDict args) σ
     = _execute_tool C "search_documents" (PDict (args ++ [("top_k", PInt 5)])) σ)
  ∧ (dict_get "y_column" args = None → dict_get "title" args = None →
     _execute_tool C "generate_plot" (PDict args) σ
     = _execute_tool C "generate_plot"
         (PDict (args ++ [("y_column", PNone)] ++ [("title", PNone)])) σ).
Proof.
  split; [|split].
  - intros Hnone. unfold _execute_tool, getitem, get_default. simpl.
    destruct (active_of σ); try done.
    rewrite (dict_get_app_other "group_column"), (dict_get_app_other "value_column") by done.
    rewrite (dict_get_app_None "agg_func") by done. rewrite Hnone. done.
  - intros Hnone. unfold _execute_tool, getitem, get_default. simpl.
    rewrite (dict_get_app_other "query") by done.
    rewrite (dict_get_app_None "top_k") by done. rewrite Hnone. done.
  - intros Hy Ht. unfold _execute_tool, getitem, get_default. simpl.
    destruct (active_of σ); try done.
    rewrite !dict_get_app, Hy, Ht. simpl.
    by destruct (dict_get "plot_type" args), (dict_get "x_column" args).
Qed.

Lemma optional_arguments_default_witness :
  _execute_tool (lab "key" true) "aggregate_data"
    (PDict [("group_column", PStr "gene"); ("value_column", PStr "expression")])
    (bench genes [])
  = _execute_tool (lab "key" true) "aggregate_data"
      (PDict [("group_column", PStr "gene"); ("value_column", PStr "expression");
              ("agg_func", PStr "mean")]) (bench genes [])
  ∧ _execute_tool (lab "key" true) "search_documents" (PDict [("query", PStr "BRCA1")])
      {| store := empty_store; heap := []; world := 0 |}
    = _execute_tool (lab "key" true) "search_documents"
        (PDict [("query", PStr "BRCA1"); ("top_k", PInt 5)])
        {| store := empty_store; heap := []; world := 0 |}
  ∧ _execute_tool (lab "key" true) "generate_plot"
      (PDict [("plot_type", PStr "bar"); ("x_column", PStr "gene")]) (bench genes [])
    = _execute_tool (lab "key" true) "generate_plot"
        (PDict [("plot_type", PStr "bar"); ("x_column", PStr "gene");
                ("y_column", PNone); ("title", PNone)]) (bench genes []).
Proof.
  split; [|split].
  - apply (optional_arguments_default (lab "key" true) (bench genes [])
             [("group_column", PStr "gene"); ("value_column", PStr "expression")]).
    reflexivity.
  - apply (optional_arguments_default (lab "key" true)
             {| store := empty_store; heap := []; world := 0 |}
             [("query", PStr "BRCA1")]).
    reflexivity.
  - apply (optional_arguments_default (lab "key" true) (bench genes [])
             [("plot_type", PStr "bar"); ("x_column", PStr "gene")]); reflexivity.
Defined.

(** ** From a script to the response *)



